(** * Challenge-response login backend (backend/main.go)

    A shallow embedding of the backend's core: the in-memory user registry
    ([MemStorage]), the nonce generator ([GetNonce]), the sign-in protocol
    ([Authenticate]), the bearer-token provider ([JwtHmacProvider]) and the
    HTTP handlers built on them, followed by the properties the design
    document states about them.

    Conventions.
    - A Go [string] is a Rocq [string] (a sequence of bytes); a [[]byte] is a
      [list Z] of values in [0, 256), with the wrap-around of byte arithmetic
      written out.
    - A Go [(T, error)] result is a pair [T * option error]; [None] is [nil].
    - A function that may panic returns a [result]; shared state is passed
      explicitly: every operation takes the registry and returns the new one.
    - The entropy source, the clock, the secp256k1/keccak primitives of
      go-ethereum and the codec/MAC primitives of golang-jwt are the
      environment: the outcome of a read of [rand.Reader] and the current time
      are arguments, the primitives are fields of the records [Crypto] and
      [JwtLib]. *)

From Stdlib Require Import ZArith List Ascii String Bool Lia DecimalString.
From Stdlib Require Import DecimalPos DecimalZ.
From stdpp Require Import base option gmap strings list fin_maps.

Open Scope string_scope.
Open Scope Z_scope.

(** ** Go runtime: panics, strings, bytes *)

Inductive result (A : Type) : Type :=
| Returns (a : A)
| Panics (reason : string).
Arguments Returns {A} a.
Arguments Panics {A} reason.

Definition byte_of_ascii (c : ascii) : Z := Z.of_N (N_of_ascii c).

(** [[]byte(s)] *)
Definition bytes_of_string (s : string) : list Z :=
  map byte_of_ascii (list_ascii_of_string s).

Definition in_range (lo hi c : ascii) : bool :=
  (byte_of_ascii lo <=? byte_of_ascii c) && (byte_of_ascii c <=? byte_of_ascii hi).

Definition is_digit (c : ascii) : bool := in_range "0" "9" c.
Definition is_lower_hex (c : ascii) : bool := in_range "a" "f" c.
Definition is_upper_hex (c : ascii) : bool := in_range "A" "F" c.
Definition is_hex_digit (c : ascii) : bool :=
  is_lower_hex c || is_upper_hex c || is_digit c.

Fixpoint all_chars (p : ascii -> bool) (s : string) : bool :=
  match s with
  | EmptyString => true
  | String c rest => p c && all_chars p rest
  end.

(** [strings.ToLower] on the strings the program applies it to: both call
    sites in the handlers run after [hexRegex] accepted the string, and
    [Authenticate] applies it to the output of [Address.Hex]; all of these are
    ASCII, where [ToLower] maps ['A'..'Z'] to ['a'..'z'] byte by byte. *)
Definition lower_ascii (c : ascii) : ascii :=
  if in_range "A" "Z" c then ascii_of_N (N_of_ascii c + 32) else c.

Fixpoint ToLower (s : string) : string :=
  match s with
  | EmptyString => EmptyString
  | String c rest => String (lower_ascii c) (ToLower rest)
  end.

(** ** Input patterns

    [hexRegex = ^0x[a-fA-F0-9]{40}$] and [nonceRegex = ^[0-9]+$]; in Go's
    regexp syntax [$] without the [m] flag matches at the end of the text
    only, so both patterns describe the whole string. *)

Definition hexRegex (s : string) : bool :=
  match s with
  | String "0" (String "x" rest) =>
      (Z.of_nat (String.length rest) =? 40) && all_chars is_hex_digit rest
  | _ => false
  end.

Definition nonceRegex (s : string) : bool :=
  match s with
  | EmptyString => false
  | String _ _ => all_chars is_digit s
  end.

(** ** go-ethereum's hexutil

    [hexutil.Decode] rejects the empty string, a string without the [0x]/[0X]
    prefix, an odd number of digits and a non-hex digit; [hexutil.MustDecode]
    panics where [Decode] returns an error. *)

Definition hex_val (c : ascii) : option Z :=
  if is_digit c then Some (byte_of_ascii c - 48)
  else if is_lower_hex c then Some (byte_of_ascii c - 87)
  else if is_upper_hex c then Some (byte_of_ascii c - 55)
  else None.

Fixpoint hex_DecodeString (s : string) : option (list Z) :=
  match s with
  | EmptyString => Some []
  | String _ EmptyString => None
  | String hi (String lo rest) =>
      match hex_val hi, hex_val lo, hex_DecodeString rest with
      | Some h, Some l, Some bs => Some (16 * h + l :: bs)
      | _, _, _ => None
      end
  end.

Definition has0xPrefix (input : string) : bool :=
  match input with
  | String "0" (String "x" _) => true
  | String "0" (String "X" _) => true
  | _ => false
  end.

Definition hexutil_Decode (input : string) : option (list Z) :=
  match input with
  | EmptyString => None
  | _ => if has0xPrefix input
         then hex_DecodeString (String.substring 2 (String.length input - 2)%nat input)
         else None
  end.

Definition MustDecode (input : string) : result (list Z) :=
  match hexutil_Decode input with
  | Some bs => Returns bs
  | None => Panics "hexutil: invalid hex string"
  end.

(** [crypto.RecoveryIDOffset] *)
Definition RecoveryIDOffset : nat := 64.

(** [sig[i] -= 27] on a byte slice: an index out of range panics, the
    subtraction wraps modulo 256. *)
Definition sub27_at (i : nat) (sig : list Z) : result (list Z) :=
  match sig !! i with
  | Some b => Returns (<[i := (b - 27) mod 256]> sig)
  | None => Panics "index out of range"
  end.

(** ** Errors

    The sentinel errors of main.go, and the errors that reach it from the
    libraries: the failure of a read of the entropy source, a recovery error
    of [crypto.SigToPub], and golang-jwt's [ValidationError] with its
    bit-mask of causes. The handlers compare errors with the sentinels by
    identity, which is equality of constructors here. *)

Inductive error : Type :=
| ErrUserNotExists
| ErrUserExists
| ErrInvalidAddress
| ErrInvalidNonce
| ErrMissingSig
| ErrAuthError
| ErrRandRead
| ErrRecover (reason : string)
| ErrUnexpectedSigningMethod
| ErrSigning
| ValidationError (Errors : Z).

#[global] Instance error_eq_dec : EqDecision error.
Proof. solve_decision. Defined.

(** ** The user registry *)

Record User : Type := { Address : string; Nonce : string }.

#[global] Instance User_eq_dec : EqDecision User.
Proof. solve_decision. Defined.

(** The zero value of [User], which [Get] returns for a missing key. *)
Definition zeroUser : User := {| Address := ""; Nonce := "" |}.

(** [MemStorage]: the [users] map. Every method holds [lock] for its whole
    body, so a method is one atomic transition of the map; the lock itself
    carries no other state. *)
Record MemStorage : Type := { users : gmap string User }.

Definition NewMemStorage : MemStorage := {| users := ∅ |}.

Definition CreateIfNotExists (m : MemStorage) (u : User) : option error * MemStorage :=
  match users m !! Address u with
  | Some _ => (Some ErrUserExists, m)
  | None => (None, {| users := <[Address u := u]> (users m) |})
  end.

Definition Get (m : MemStorage) (address : string) : User * option error :=
  match users m !! address with
  | None => (zeroUser, Some ErrUserNotExists)
  | Some u => (u, None)
  end.

Definition Update (m : MemStorage) (user : User) : option error * MemStorage :=
  (None, {| users := <[Address user := user]> (users m) |}).

(** ** The nonce generator *)

(** What one read of [rand.Reader] by [rand.Int] gives: a number, or the
    reader's error. *)
Inductive RandRead : Type :=
| RandOk (n : Z)
| RandFail.

(** The bound computed once under [once.Do]: [2^130 - 1]. *)
Definition max : Z := 2 ^ 130 - 1.

(** [rand.Int(rand.Reader, max)] returns a number of [[0, max)]. *)
Definition rand_in_range (r : RandRead) : Prop :=
  match r with
  | RandOk n => 0 <= n < max
  | RandFail => True
  end.

(** [n.Text(10)] *)
Definition Text10 (n : Z) : string := NilZero.string_of_int (Z.to_int n).

Definition GetNonce (entropy : RandRead) : string * option error :=
  match entropy with
  | RandFail => ("", Some ErrRandRead)
  | RandOk n => (Text10 n, None)
  end.

(** ** The signature primitives of go-ethereum

    [accounts.TextHash] (the personal-sign prefixed hash), [crypto.SigToPub]
    (public-key recovery, which fails with an error on a signature that is not
    65 bytes long, has a recovery id outside [0, 4) or yields no curve point),
    [crypto.PubkeyToAddress] and [Address.Hex] (the checksummed, mixed-case
    hex form). They are library code; the protocol is verified for every
    implementation of this interface. *)
Record Crypto : Type := {
  PublicKey : Type;
  TextHash : list Z -> list Z;
  SigToPub : list Z -> list Z -> string + PublicKey;
  PubkeyToAddress : PublicKey -> list Z;
  Hex : list Z -> string
}.

Section Authentication.
Variable crypto : Crypto.

(** [Authenticate]; [entropy] is what the entropy source answers if
    [GetNonce] is reached. *)
Definition Authenticate (storage : MemStorage) (address nonce sigHex : string)
    (entropy : RandRead) : result (User * option error) * MemStorage :=
  let '(user, err) := Get storage address in
  match err with
  | Some e => (Returns (user, Some e), storage)
  | None =>
    if negb (String.eqb (Nonce user) nonce) then
      (Returns (user, Some ErrAuthError), storage)
    else
      match MustDecode sigHex with
      | Panics why => (Panics why, storage)
      | Returns sig =>
        match sub27_at RecoveryIDOffset sig with
        | Panics why => (Panics why, storage)
        | Returns sig =>
          let msg := TextHash crypto (bytes_of_string nonce) in
          match SigToPub crypto msg sig with
          | inl reason => (Returns (user, Some (ErrRecover reason)), storage)
          | inr recovered =>
            let recoveredAddr := PubkeyToAddress crypto recovered in
            if negb (String.eqb (Address user) (ToLower (Hex crypto recoveredAddr))) then
              (Returns (user, Some ErrAuthError), storage)
            else
              (* update the nonce here so that the signature cannot be reused *)
              match GetNonce entropy with
              | (_, Some e) => (Returns (user, Some e), storage)
              | (nonce', None) =>
                let user := {| Address := Address user; Nonce := nonce' |} in
                let '(_, storage) := Update storage user in
                (Returns (user, None), storage)
              end
          end
        end
      end
  end.

End Authentication.

(** ** Bearer tokens: golang-jwt v4 as [JwtHmacProvider] uses it

    The library is a dependency (go.mod pins v4.4.1), not part of main.go.
    Its parsing pipeline is written out below as the library documents it;
    what it computes on bytes (base64url and JSON decoding of a segment, the
    HMAC of the signing string, the serialisation of a signed token) is the
    interface [JwtLib]. Times are instants on one integer scale. *)

(** The registered claims the library validates in [Valid] and main.go sets
    or reads. *)
Record RegisteredClaims : Type := {
  Issuer : string;
  Subject : string;
  ExpiresAt : option Z;
  NotBefore : option Z;
  IssuedAt : option Z
}.

(** The signing methods the library registers, keyed by their [alg] name;
    [*SigningMethodHMAC] is the Go type of the HS family. *)
Inductive SigningMethod : Type :=
| SigningMethodHMAC (Name : string)
| SigningMethodRSA (Name : string)
| SigningMethodRSAPSS (Name : string)
| SigningMethodECDSA (Name : string)
| SigningMethodEd25519
| signingMethodNone.

Definition GetSigningMethod (alg : string) : option SigningMethod :=
  if bool_decide (alg ∈ ["HS256"; "HS384"; "HS512"]) then Some (SigningMethodHMAC alg)
  else if bool_decide (alg ∈ ["RS256"; "RS384"; "RS512"]) then Some (SigningMethodRSA alg)
  else if bool_decide (alg ∈ ["PS256"; "PS384"; "PS512"]) then Some (SigningMethodRSAPSS alg)
  else if bool_decide (alg ∈ ["ES256"; "ES384"; "ES512"]) then Some (SigningMethodECDSA alg)
  else if bool_decide (alg = "EdDSA") then Some SigningMethodEd25519
  else if bool_decide (alg = "none") then Some signingMethodNone
  else None.

Definition SigningMethodHS256 : SigningMethod := SigningMethodHMAC "HS256".

Record Token : Type := {
  Method : SigningMethod;
  Claims : RegisteredClaims;
  Valid : bool
}.

Record JwtLib : Type := {
  (** the [alg] entry of the decoded header segment, when the segment is
      base64url-encoded JSON ([None]: it is not); the entry is [None] when the
      header has no [alg] or it is not a string *)
  DecodeHeader : string -> option (option string);
  (** the claims segment decoded into [RegisteredClaims] *)
  DecodeClaims : string -> option RegisteredClaims;
  (** [SigningMethodHMAC.Verify]: does the signature segment decode to the
      MAC of the signing string under the key, for the method of that name *)
  HMAC_Verify : string -> string -> string -> list Z -> bool;
  (** [Token.SignedString] for a token of the given method and claims *)
  SignedString : SigningMethod -> RegisteredClaims -> list Z -> string * option error
}.

(** The bits of [ValidationError.Errors]. *)
Definition ValidationErrorMalformed : Z := Z.shiftl 1 0.
Definition ValidationErrorUnverifiable : Z := Z.shiftl 1 1.
Definition ValidationErrorSignatureInvalid : Z := Z.shiftl 1 2.
Definition ValidationErrorExpired : Z := Z.shiftl 1 4.
Definition ValidationErrorIssuedAt : Z := Z.shiftl 1 5.
Definition ValidationErrorNotValidYet : Z := Z.shiftl 1 7.

(** [strings.Split(s, ".")] *)
Fixpoint Split_dot (s : string) : list string :=
  match s with
  | EmptyString => [EmptyString]
  | String c rest =>
      if Ascii.eqb c "." then EmptyString :: Split_dot rest
      else match Split_dot rest with
           | p :: ps => String c p :: ps
           | [] => [String c EmptyString]
           end
  end.

Definition verifyExp (exp : option Z) (now : Z) (required : bool) : bool :=
  match exp with
  | None => negb required
  | Some e => now <? e
  end.

Definition verifyIat (iat : option Z) (now : Z) (required : bool) : bool :=
  match iat with
  | None => negb required
  | Some t => (t <? now) || (now =? t)
  end.

Definition verifyNbf (nbf : option Z) (now : Z) (required : bool) : bool :=
  match nbf with
  | None => negb required
  | Some t => (t <? now) || (now =? t)
  end.

(** [RegisteredClaims.Valid]: the bit-mask of the failed time checks, [0]
    when the claims are valid. *)
Definition claims_errors (c : RegisteredClaims) (now : Z) : Z :=
  let e := 0 in
  let e := if negb (verifyExp (ExpiresAt c) now false) then Z.lor e ValidationErrorExpired else e in
  let e := if negb (verifyIat (IssuedAt c) now false) then Z.lor e ValidationErrorIssuedAt else e in
  let e := if negb (verifyNbf (NotBefore c) now false) then Z.lor e ValidationErrorNotValidYet else e in
  e.

Definition zeroClaims : RegisteredClaims :=
  {| Issuer := ""; Subject := ""; ExpiresAt := None; NotBefore := None; IssuedAt := None |}.

(** The token value that accompanies an error before a token was built (the
    library returns a nil pointer there; main.go does not look at it). *)
Definition zeroToken : Token :=
  {| Method := signingMethodNone; Claims := zeroClaims; Valid := false |}.

Section Jwt.
Variable lib : JwtLib.

Definition ParseUnverified (tokenString : string) : Token * list string * option error :=
  let parts := Split_dot tokenString in
  match parts with
  | [header; claims; _] =>
      match DecodeHeader lib header with
      | None => (zeroToken, parts, Some (ValidationError ValidationErrorMalformed))
      | Some alg =>
          match DecodeClaims lib claims with
          | None => (zeroToken, parts, Some (ValidationError ValidationErrorMalformed))
          | Some c =>
              match alg with
              | None => (zeroToken, parts, Some (ValidationError ValidationErrorUnverifiable))
              | Some name =>
                  match GetSigningMethod name with
                  | None => (zeroToken, parts, Some (ValidationError ValidationErrorUnverifiable))
                  | Some m => ({| Method := m; Claims := c; Valid := false |}, parts, None)
                  end
              end
          end
      end
  | _ => (zeroToken, parts, Some (ValidationError ValidationErrorMalformed))
  end.

(** [Method.Verify] for a key that a [Keyfunc] returned as [[]byte]; the
    methods outside the HS family do not accept such a key. *)
Definition Method_Verify (m : SigningMethod) (signingString signature : string)
    (key : list Z) : bool :=
  match m with
  | SigningMethodHMAC name => HMAC_Verify lib name signingString signature key
  | _ => false
  end.

Definition ParseWithClaims (now : Z) (tokenString : string)
    (keyFunc : Token -> list Z * option error) : Token * option error :=
  let '(token, parts, err) := ParseUnverified tokenString in
  match err with
  | Some e => (token, Some e)
  | None =>
      let '(key, err) := keyFunc token in
      match err with
      | Some (ValidationError ve) => (token, Some (ValidationError ve))
      | Some _ => (token, Some (ValidationError ValidationErrorUnverifiable))
      | None =>
          let vErr := claims_errors (Claims token) now in
          let signingString :=
            nth 0 parts EmptyString ++ "." ++ nth 1 parts EmptyString in
          let vErr :=
            if Method_Verify (Method token) signingString (nth 2 parts EmptyString) key
            then vErr else Z.lor vErr ValidationErrorSignatureInvalid in
          if vErr =? 0
          then ({| Method := Method token; Claims := Claims token; Valid := true |}, None)
          else (token, Some (ValidationError vErr))
      end
  end.

Record JwtHmacProvider : Type := {
  hmacSecret : list Z;
  issuer : string;
  duration : Z
}.

Definition CreateStandard (j : JwtHmacProvider) (now : Z) (subject : string)
    : string * option error :=
  let claims := {| Issuer := issuer j; Subject := subject;
                   IssuedAt := Some now; ExpiresAt := Some (now + duration j);
                   NotBefore := None |} in
  SignedString lib SigningMethodHS256 claims (hmacSecret j).

Definition is_SigningMethodHMAC (m : SigningMethod) : bool :=
  match m with
  | SigningMethodHMAC _ => true
  | _ => false
  end.

Definition Verify (j : JwtHmacProvider) (now : Z) (tokenString : string)
    : option RegisteredClaims * option error :=
  let '(token, err) :=
    ParseWithClaims now tokenString (fun token =>
      if negb (is_SigningMethodHMAC (Method token))
      then ([], Some ErrUnexpectedSigningMethod)
      else (hmacSecret j, None)) in
  match err with
  | Some _ => (None, Some ErrAuthError)
  | None =>
      if Valid token then (Some (Claims token), None)
      else (None, Some ErrAuthError)
  end.

End Jwt.

(** ** HTTP handlers

    A handler is its effect on the registry and the response it writes; the
    request is what [bindReqBody] (or the router, for the nonce route) hands
    over: [None] when the body does not decode. *)

Definition StatusOK : Z := 200.
Definition StatusCreated : Z := 201.
Definition StatusBadRequest : Z := 400.
Definition StatusUnauthorized : Z := 401.
Definition StatusNotFound : Z := 404.
Definition StatusConflict : Z := 409.
Definition StatusInternalServerError : Z := 500.

Inductive Body : Type :=
| NoBody
| NonceBody (Nonce : string)
| AccessBody (AccessToken : string).

Record Response : Type := { StatusCode : Z; Payload : Body }.

(** [w.WriteHeader(code)] and nothing else *)
Definition WriteHeader (code : Z) : Response := {| StatusCode := code; Payload := NoBody |}.

(** [renderJson(r, w, code, body)] *)
Definition renderJson (code : Z) (body : Body) : Response :=
  {| StatusCode := code; Payload := body |}.

Module RegisterPayload.
Record t : Type := { Address : string }.

Definition Validate (p : t) : option error :=
  if negb (hexRegex (Address p)) then Some ErrInvalidAddress else None.
End RegisterPayload.

Module SigninPayload.
Record t : Type := { Address : string; Nonce : string; Sig : string }.

Definition Validate (s : t) : option error :=
  if negb (hexRegex (Address s)) then Some ErrInvalidAddress
  else if negb (nonceRegex (Nonce s)) then Some ErrInvalidNonce
  else if (String.length (Sig s) =? 0)%nat then Some ErrMissingSig
  else None.
End SigninPayload.

Definition RegisterHandler (storage : MemStorage) (body : option RegisterPayload.t)
    (entropy : RandRead) : Response * MemStorage :=
  match body with
  | None => (WriteHeader StatusBadRequest, storage)
  | Some p =>
    match RegisterPayload.Validate p with
    | Some _ => (WriteHeader StatusBadRequest, storage)
    | None =>
      match GetNonce entropy with
      | (_, Some _) => (WriteHeader StatusInternalServerError, storage)
      | (nonce, None) =>
        let u := {| Address := ToLower (RegisterPayload.Address p); (* only store lower case *)
                    Nonce := nonce |} in
        match CreateIfNotExists storage u with
        | (Some err, storage) =>
            if bool_decide (err = ErrUserExists)
            then (WriteHeader StatusConflict, storage)
            else (WriteHeader StatusInternalServerError, storage)
        | (None, storage) => (WriteHeader StatusCreated, storage)
        end
      end
    end
  end.

Definition UserNonceHandler (storage : MemStorage) (address : string) : Response :=
  if negb (hexRegex address) then WriteHeader StatusBadRequest
  else
    match Get storage (ToLower address) with
    | (_, Some err) =>
        if bool_decide (err = ErrUserNotExists) then WriteHeader StatusNotFound
        else WriteHeader StatusInternalServerError
    | (user, None) => renderJson StatusOK (NonceBody (Nonce user))
    end.

Section Signin.
Variable crypto : Crypto.
Variable lib : JwtLib.

(** A panic of [Authenticate] unwinds through the handler: no response is
    written by it. *)
Definition SigninHandler (storage : MemStorage) (jwtProvider : JwtHmacProvider)
    (body : option SigninPayload.t) (entropy : RandRead) (now : Z)
    : result Response * MemStorage :=
  match body with
  | None => (Returns (WriteHeader StatusBadRequest), storage)
  | Some p =>
    match SigninPayload.Validate p with
    | Some _ => (Returns (WriteHeader StatusBadRequest), storage)
    | None =>
      let address := ToLower (SigninPayload.Address p) in
      match Authenticate crypto storage address (SigninPayload.Nonce p)
              (SigninPayload.Sig p) entropy with
      | (Panics why, storage) => (Panics why, storage)
      | (Returns (user, err), storage) =>
        match err with
        | Some ErrAuthError => (Returns (WriteHeader StatusUnauthorized), storage)
        | Some _ => (Returns (WriteHeader StatusInternalServerError), storage)
        | None =>
          match CreateStandard lib jwtProvider now (Address user) with
          | (_, Some _) => (Returns (WriteHeader StatusInternalServerError), storage)
          | (signedToken, None) =>
              (Returns (renderJson StatusOK (AccessBody signedToken)), storage)
          end
        end
      end
    end
  end.

End Signin.

(** ** The server: requests served one after the other

    The three routes that reach the registry's state: [/register] and
    [/signin] write it, [/users/{address}/nonce] reads it. ([/welcome],
    behind [AuthMiddleware], only reads a record by the token's subject.) *)

Inductive Request : Type :=
| PostRegister (body : option RegisterPayload.t) (entropy : RandRead)
| GetUserNonce (address : string)
| PostSignin (body : option SigninPayload.t) (entropy : RandRead) (now : Z).

Section Server.
Variable crypto : Crypto.
Variable lib : JwtLib.
Variable jwtProvider : JwtHmacProvider.

(** One request against the registry. net/http recovers a handler's panic
    and goes on serving, so a panicking request leaves the registry as the
    handler left it. *)
Definition serve (storage : MemStorage) (req : Request) : result Response * MemStorage :=
  match req with
  | PostRegister body entropy =>
      let '(resp, storage) := RegisterHandler storage body entropy in
      (Returns resp, storage)
  | GetUserNonce address => (Returns (UserNonceHandler storage address), storage)
  | PostSignin body entropy now =>
      SigninHandler crypto lib storage jwtProvider body entropy now
  end.

Definition run (storage : MemStorage) (reqs : list Request) : MemStorage :=
  fold_left (fun st req => snd (serve st req)) reqs storage.

End Server.

(** ** Sign-ins in flight

    [Authenticate] takes [lock] twice, in [Get] and in [Update], and holds
    nothing in between. A goroutine running it is therefore at one of four
    points, and the registry may change under it between any two of them. *)

Inductive AuthTask : Type :=
| AuthStart (address nonce sigHex : string) (entropy : RandRead)
| AuthLoaded (user : User) (err : option error) (nonce sigHex : string) (entropy : RandRead)
| AuthCommit (user : User)
| AuthDone (r : result (User * option error)).

Section Interleaving.
Variable crypto : Crypto.

(** The part of [Authenticate] between the return of [Get] and the call of
    [Update]: it works on the goroutine's own copy of the record. *)
Definition auth_local (user : User) (err : option error) (nonce sigHex : string)
    (entropy : RandRead) : AuthTask :=
  match err with
  | Some e => AuthDone (Returns (user, Some e))
  | None =>
    if negb (String.eqb (Nonce user) nonce) then
      AuthDone (Returns (user, Some ErrAuthError))
    else
      match MustDecode sigHex with
      | Panics why => AuthDone (Panics why)
      | Returns sig =>
        match sub27_at RecoveryIDOffset sig with
        | Panics why => AuthDone (Panics why)
        | Returns sig =>
          let msg := TextHash crypto (bytes_of_string nonce) in
          match SigToPub crypto msg sig with
          | inl reason => AuthDone (Returns (user, Some (ErrRecover reason)))
          | inr recovered =>
            let recoveredAddr := PubkeyToAddress crypto recovered in
            if negb (String.eqb (Address user) (ToLower (Hex crypto recoveredAddr))) then
              AuthDone (Returns (user, Some ErrAuthError))
            else
              match GetNonce entropy with
              | (_, Some e) => AuthDone (Returns (user, Some e))
              | (nonce', None) => AuthCommit {| Address := Address user; Nonce := nonce' |}
              end
          end
        end
      end
  end.

(** One step of a goroutine: a whole [Get], the lock-free middle, or a
    whole [Update]. *)
Definition auth_step (t : AuthTask) (storage : MemStorage) : AuthTask * MemStorage :=
  match t with
  | AuthStart address nonce sigHex entropy =>
      let '(user, err) := Get storage address in
      (AuthLoaded user err nonce sigHex entropy, storage)
  | AuthLoaded user err nonce sigHex entropy =>
      (auth_local user err nonce sigHex entropy, storage)
  | AuthCommit user =>
      let '(_, storage) := Update storage user in
      (AuthDone (Returns (user, None)), storage)
  | AuthDone r => (AuthDone r, storage)
  end.

(** Goroutines under a schedule: each entry names the goroutine that takes
    the next step. *)
Fixpoint schedule (sched : list nat) (tasks : list AuthTask) (storage : MemStorage)
    : list AuthTask * MemStorage :=
  match sched with
  | [] => (tasks, storage)
  | i :: sched =>
      match tasks !! i with
      | None => schedule sched tasks storage
      | Some t =>
          let '(t, storage) := auth_step t storage in
          schedule sched (<[i := t]> tasks) storage
      end
  end.

Definition succeeded (t : AuthTask) : bool :=
  match t with
  | AuthDone (Returns (_, None)) => true
  | _ => false
  end.

End Interleaving.

(** ** An executable instance of the primitives

    To run the model on concrete requests the interfaces need an instance.
    [demo_crypto] keeps the shape of the real scheme (the checks of
    [SigToPub] on length and recovery id, a signature bound to the message
    hash, an address in mixed-case hex) without its arithmetic: a signature
    is [r ‖ s ‖ v] with the signer's 20 address bytes in [r] and the message
    hash in [s]. The theorems below hold for every instance; the instance
    only serves the concrete runs. *)

Definition hex_digit_upper (n : Z) : ascii :=
  if n <? 10 then ascii_of_N (Z.to_N (n + 48)) else ascii_of_N (Z.to_N (n + 55)).

Fixpoint hex_encode_upper (bs : list Z) : string :=
  match bs with
  | [] => EmptyString
  | b :: bs => String (hex_digit_upper (b / 16)) (String (hex_digit_upper (b mod 16)) (hex_encode_upper bs))
  end.

Definition pad32 (bs : list Z) : list Z := firstn 32 (bs ++ repeat 0 32).

Definition demo_SigToPub (msg sig : list Z) : string + list Z :=
  if negb (length sig =? 65)%nat then inl "invalid signature length"
  else if 4 <=? nth 64 sig 0 then inl "invalid signature recovery id"
  else if negb (bool_decide (firstn 32 (skipn 32 sig) = msg)) then inl "recovery failed"
  else inr (firstn 20 sig).

Definition demo_crypto : Crypto := {|
  PublicKey := list Z;
  TextHash := pad32;
  SigToPub := demo_SigToPub;
  PubkeyToAddress := fun pk => pk;
  Hex := fun addr => "0x" ++ hex_encode_upper addr
|}.

(** A stand-in for the MAC: the byte sum of key, method name and signing
    string, in decimal. *)
Definition demo_mac (name signingString : string) (key : list Z) : string :=
  Text10 (fold_right Z.add 0 (key ++ bytes_of_string (name ++ signingString))).

Definition demo_jwt : JwtLib := {|
  DecodeHeader := fun seg => if String.eqb seg "" then None else Some (Some seg);
  DecodeClaims := fun seg =>
    Some {| Issuer := "demo"; Subject := seg; ExpiresAt := Some 1000;
            NotBefore := None; IssuedAt := Some 100 |};
  HMAC_Verify := fun name signingString signature key =>
    String.eqb signature (demo_mac name signingString key);
  SignedString := fun m claims key =>
    match m with
    | SigningMethodHMAC name =>
        let s := name ++ "." ++ Subject claims in (s ++ "." ++ demo_mac name s key, None)
    | _ => ("", Some ErrSigning)
    end
|}.

Definition demo_provider : JwtHmacProvider :=
  {| hmacSecret := bytes_of_string "read something from env here maybe";
     issuer := "awesome-metamask-login";
     duration := 900 |}.

Definition demo_address : string := "0xabcdef0123456789abcdef0123456789abcdef01".
Definition demo_Address_mixed : string := "0xABCDEF0123456789abcdef0123456789ABCDEF01".

(** The signature of the nonce ["5"] by [demo_address] under [demo_crypto],
    with the legacy recovery id 27. *)
Definition demo_sig_5 : string :=
  "0xabcdef0123456789abcdef0123456789abcdef01000000000000000000000000"
  ++ "3500000000000000000000000000000000000000000000000000000000000000"
  ++ "1b".

Definition demo_storage : MemStorage :=
  snd (RegisterHandler NewMemStorage
         (Some {| RegisterPayload.Address := demo_Address_mixed |}) (RandOk 5)).

(** The registry after [demo_Address_mixed] registered and drew the nonce
    ["5"], as a sequence of requests. *)
Definition demo_history : list Request :=
  [PostRegister (Some {| RegisterPayload.Address := demo_Address_mixed |}) (RandOk 5)].

(** Sign-in requests for the registered demo user with the stored nonce:
    signed correctly, with a 66-byte signature, with a signature that is not
    hex, with a stale nonce, and signed by another account. *)
Definition demo_signin (nonce sig : string) : SigninPayload.t :=
  {| SigninPayload.Address := demo_Address_mixed;
     SigninPayload.Nonce := nonce;
     SigninPayload.Sig := sig |}.

Definition sig_66_bytes : string :=
  "0x000000000000000000000000000000000000000000000000000000000000000000"
  ++ "000000000000000000000000000000000000000000000000000000000000000000".

Definition sig_other_signer : string :=
  "0x1111111111111111111111111111111111111111000000000000000000000000"
  ++ "3500000000000000000000000000000000000000000000000000000000000000"
  ++ "1c".

(** The demo registry after a sign-in that consumed ["5"] and drew [n]. *)
Definition demo_storage_after (n : Z) : MemStorage :=
  snd (Authenticate demo_crypto demo_storage demo_address "5" demo_sig_5 (RandOk n)).

Definition demo_user (nonce : string) : User :=
  {| Address := demo_address; Nonce := nonce |}.

(** ** Notions used in the statements *)

(** What [Authenticate] derives from the request alone between the nonce
    check and the address comparison: a panic (of [MustDecode] or of the
    index expression), the error of [SigToPub], or the recovered address in
    lowercase hex. *)
Definition recover_address (crypto : Crypto) (nonce sigHex : string)
    : result (string + string) :=
  match MustDecode sigHex with
  | Panics why => Panics why
  | Returns sig =>
    match sub27_at RecoveryIDOffset sig with
    | Panics why => Panics why
    | Returns sig =>
      match SigToPub crypto (TextHash crypto (bytes_of_string nonce)) sig with
      | inl reason => Returns (inl reason)
      | inr recovered => Returns (inr (ToLower (Hex crypto (PubkeyToAddress crypto recovered))))
      end
    end
  end.

(** Every key of the registry is a well-formed address in lowercase, and is
    the address of the record stored under it. *)
Definition keys_canonical (storage : MemStorage) : Prop :=
  forall k u, users storage !! k = Some u ->
    Address u = k /\ ToLower k = k /\ hexRegex k = true.

(** The registries the server can be in: those a sequence of requests
    produces from the empty one. *)
Definition reachable (crypto : Crypto) (lib : JwtLib) (jwtProvider : JwtHmacProvider)
    (storage : MemStorage) : Prop :=
  exists reqs, storage = run crypto lib jwtProvider NewMemStorage reqs.

(** The number a request's read of the entropy source yields, if the
    request carries a successful read. *)
Definition request_draw (req : Request) : option Z :=
  match req with
  | PostRegister _ (RandOk n) => Some n
  | PostSignin _ (RandOk n) _ => Some n
  | _ => None
  end.

(** No read of the entropy source in the requests yields the given nonce. *)
Definition avoids (nonce : string) (reqs : list Request) : Prop :=
  forall req n, In req reqs -> request_draw req = Some n -> Text10 n <> nonce.

(** The tokens the claim describes as good at time [now]: three segments
    whose header and claims decode, a header algorithm of the HS family, a
    signature segment that is the MAC of the first two segments under the
    provider's secret, and claims whose expiry has not passed (nor is the
    token used before its issue or not-before time). *)
Definition acceptable (lib : JwtLib) (j : JwtHmacProvider) (now : Z)
    (tokenString : string) (claims : RegisteredClaims) : Prop :=
  exists header body signature name,
    Split_dot tokenString = [header; body; signature] /\
    DecodeHeader lib header = Some (Some name) /\
    DecodeClaims lib body = Some claims /\
    name ∈ ["HS256"; "HS384"; "HS512"] /\
    HMAC_Verify lib name (header ++ "." ++ body) signature (hmacSecret j) = true /\
    verifyExp (ExpiresAt claims) now false = true /\
    verifyIat (IssuedAt claims) now false = true /\
    verifyNbf (NotBefore claims) now false = true.

(** A response the HTTP layer classifies as a client error. *)
Definition is_client_error (r : Response) : bool :=
  (400 <=? StatusCode r) && (StatusCode r <? 500).

(** ** The protected route

    [AuthMiddleware] in front of [WelcomeHandler]. The request context is
    the value stored under the key ["user"], if any; the middleware answers
    itself, or stores the record it found and calls [next]. *)

(** [s[n:]] for [n <= len(s)] *)
Definition string_from (n : nat) (s : string) : string :=
  String.substring n (String.length s - n)%nat s.

(** [ctx.Value("user").(User)]: the type assertion panics on a context
    without the value. *)
Definition getUserFromReqContext (ctx : option User) : result User :=
  match ctx with
  | Some key => Returns key
  | None => Panics "interface conversion: interface {} is nil, not main.User"
  end.

Record WelcomeResponse : Type := { WelcomeStatus : Z; Msg : string }.

Definition WelcomeHandler (ctx : option User) : result WelcomeResponse :=
  match getUserFromReqContext ctx with
  | Panics why => Panics why
  | Returns user =>
      Returns {| WelcomeStatus := StatusOK;
                 Msg := "Congrats " ++ Address user ++ " you made it" |}
  end.

Section Middleware.
Variable lib : JwtLib.
Context {R : Type}.

(** The result is the middleware's own response ([inl]) or what [next]
    wrote ([inr]). [claims.Subject] on the nil pointer that accompanies a
    nil error would panic. *)
Definition AuthMiddleware (storage : MemStorage) (jwtProvider : JwtHmacProvider)
    (now : Z) (headerValue : string) (next : option User -> result R)
    : result (Response + R) :=
  let prefix := "Bearer " in
  if (String.length headerValue <? String.length prefix)%nat then
    Returns (inl (WriteHeader StatusUnauthorized))
  else
    let tokenString := string_from (String.length prefix) headerValue in
    if (String.length tokenString =? 0)%nat then
      Returns (inl (WriteHeader StatusUnauthorized))
    else
      match Verify lib jwtProvider now tokenString with
      | (_, Some _) => Returns (inl (WriteHeader StatusUnauthorized))
      | (None, None) => Panics "invalid memory address or nil pointer dereference"
      | (Some claims, None) =>
        match Get storage (Subject claims) with
        | (_, Some err) =>
            if bool_decide (err = ErrUserNotExists)
            then Returns (inl (WriteHeader StatusUnauthorized))
            else Returns (inl (WriteHeader StatusInternalServerError))
        | (user, None) =>
            match next (Some user) with
            | Panics why => Panics why
            | Returns r => Returns (inr r)
            end
        end
      end.

End Middleware.

(** ** Further notions used in the statements *)

(** Every read of the entropy source in the requests is one [rand.Int]
    can return. *)
Definition draws_in_range (reqs : list Request) : Prop :=
  forall req n, In req reqs -> request_draw req = Some n -> 0 <= n < max.

(** The nonce string read back as a number. *)
Definition parse_nonce (s : string) : option Z :=
  option_map Z.of_int (NilZero.int_of_string s).

(** What signing and parsing of the token library have to do with each
    other: a token that [SignedString] produced for an HS method splits into
    three segments that decode to the method's name and to the claims
    signed, and its signature verifies under the key. *)
Definition jwt_coherent (lib : JwtLib) : Prop :=
  forall name claims key tok,
    SignedString lib (SigningMethodHMAC name) claims key = (tok, None) ->
    exists header body signature,
      Split_dot tok = [header; body; signature] /\
      DecodeHeader lib header = Some (Some name) /\
      DecodeClaims lib body = Some claims /\
      HMAC_Verify lib name (header ++ "." ++ body) signature key = true.

(** What a goroutine holds of the registry: a sign-in in flight carries a
    record whose address is a key of the registry, in canonical form. *)
Definition task_holds (storage : MemStorage) (t : AuthTask) : Prop :=
  match t with
  | AuthLoaded user None _ _ _ | AuthCommit user =>
      is_Some (users storage !! Address user) /\
      ToLower (Address user) = Address user /\ hexRegex (Address user) = true
  | _ => True
  end.

#[global] Instance RegisteredClaims_eq_dec : EqDecision RegisteredClaims.
Proof. solve_decision. Defined.

(** A token library that can serialise one claims value under one key, as
    the body segment ["c"]; it is coherent, and serves the concrete runs of
    issuing and verifying. *)
Definition single_jwt (c : RegisteredClaims) (k : list Z) : JwtLib := {|
  DecodeHeader := fun seg => if String.eqb seg "" then None else Some (Some seg);
  DecodeClaims := fun seg => if String.eqb seg "c" then Some c else None;
  HMAC_Verify := fun name signingString signature key =>
    String.eqb signature (demo_mac name signingString key);
  SignedString := fun m claims key =>
    match m with
    | SigningMethodHMAC name =>
        if bool_decide (claims = c) && bool_decide (key = k) && bool_decide (name = "HS256")
        then ("HS256.c." ++ demo_mac "HS256" "HS256.c" k, None)
        else ("", Some ErrSigning)
    | _ => ("", Some ErrSigning)
    end
|}.

(** The claims [CreateStandard] builds for the demo user at time 100. *)
Definition demo_claims : RegisteredClaims :=
  {| Issuer := "awesome-metamask-login"; Subject := demo_address;
     ExpiresAt := Some 1000; NotBefore := None; IssuedAt := Some 100 |}.

Definition demo_codec : JwtLib := single_jwt demo_claims (hmacSecret demo_provider).

(** * Properties *)

(** ** Strings *)

Lemma lower_ascii_idemp (c : ascii) : lower_ascii (lower_ascii c) = lower_ascii c.
Proof. destruct c as [[] [] [] [] [] [] [] []]; reflexivity. Qed.

Lemma lower_ascii_hex (c : ascii) :
  is_hex_digit c = true -> is_hex_digit (lower_ascii c) = true.
Proof. destruct c as [[] [] [] [] [] [] [] []]; intros H; try reflexivity; discriminate H. Qed.

Lemma ToLower_idemp (s : string) : ToLower (ToLower s) = ToLower s.
Proof. induction s as [|c s IH]; simpl; [reflexivity|]. now rewrite lower_ascii_idemp, IH. Qed.

Lemma ToLower_length (s : string) : String.length (ToLower s) = String.length s.
Proof. induction s as [|c s IH]; simpl; congruence. Qed.

Lemma ToLower_hex_digits (s : string) :
  all_chars is_hex_digit s = true -> all_chars is_hex_digit (ToLower s) = true.
Proof.
  induction s as [|c s IH]; simpl; [reflexivity|].
  intros [Hc Hs]%andb_prop. now rewrite (lower_ascii_hex c Hc), (IH Hs).
Qed.

Lemma hexRegex_inv (s : string) :
  hexRegex s = true ->
  exists rest, s = String "0" (String "x" rest) /\
               Z.of_nat (String.length rest) = 40 /\
               all_chars is_hex_digit rest = true.
Proof.
  destruct s as [|c0 [|c1 rest]]; simpl.
  - discriminate.
  - destruct c0 as [[] [] [] [] [] [] [] []]; discriminate.
  - destruct c0 as [[] [] [] [] [] [] [] []]; try discriminate.
    destruct c1 as [[] [] [] [] [] [] [] []]; try discriminate.
    intros [Hlen Hhex]%andb_prop. exists rest.
    split; [reflexivity|]. split; [now apply Z.eqb_eq|exact Hhex].
Qed.

Lemma hexRegex_ToLower (s : string) : hexRegex s = true -> hexRegex (ToLower s) = true.
Proof.
  intros (rest & -> & Hlen & Hhex)%hexRegex_inv.
  change (ToLower (String "0" (String "x" rest)))
    with (String "0" (String "x" (ToLower rest))).
  unfold hexRegex. rewrite ToLower_length, (ToLower_hex_digits rest Hhex).
  apply andb_true_intro. split; [now apply Z.eqb_eq|reflexivity].
Qed.

(** ** [Authenticate], case by case *)

Lemma Authenticate_cases crypto storage address nonce sigHex entropy :
  Authenticate crypto storage address nonce sigHex entropy =
  match users storage !! address with
  | None => (Returns (zeroUser, Some ErrUserNotExists), storage)
  | Some user =>
    if negb (String.eqb (Nonce user) nonce) then
      (Returns (user, Some ErrAuthError), storage)
    else
      match recover_address crypto nonce sigHex with
      | Panics why => (Panics why, storage)
      | Returns (inl reason) => (Returns (user, Some (ErrRecover reason)), storage)
      | Returns (inr a) =>
        if negb (String.eqb (Address user) a) then
          (Returns (user, Some ErrAuthError), storage)
        else
          match entropy with
          | RandFail => (Returns (user, Some ErrRandRead), storage)
          | RandOk n =>
            let user' := {| Address := Address user; Nonce := Text10 n |} in
            (Returns (user', None), {| users := <[Address user := user']> (users storage) |})
          end
      end
  end.
Proof.
  unfold Authenticate, recover_address, Get.
  destruct (users storage !! address) as [user|]; [|reflexivity].
  destruct (negb (String.eqb (Nonce user) nonce)); [reflexivity|].
  destruct (MustDecode sigHex) as [sig|]; [|reflexivity].
  destruct (sub27_at RecoveryIDOffset sig) as [sig'|]; [|reflexivity].
  destruct (SigToPub crypto _ sig') as [reason|pk]; [reflexivity|].
  destruct (negb (String.eqb (Address user) _)); [reflexivity|].
  destruct entropy; reflexivity.
Qed.

(** ** The registry's keys *)

Lemma keys_canonical_empty : keys_canonical NewMemStorage.
Proof. intros k u H. simpl in H. rewrite lookup_empty in H. discriminate. Qed.

Lemma keys_canonical_insert storage u :
  keys_canonical storage ->
  ToLower (Address u) = Address u -> hexRegex (Address u) = true ->
  keys_canonical {| users := <[Address u := u]> (users storage) |}.
Proof.
  intros Hwf Hlow Hhex k v. simpl. rewrite lookup_insert.
  case_decide as Hk.
  - intros [= <-]. subst k. auto.
  - apply Hwf.
Qed.

Lemma RegisterHandler_keys storage body entropy :
  keys_canonical storage -> keys_canonical (snd (RegisterHandler storage body entropy)).
Proof.
  intros Hwf. unfold RegisterHandler.
  destruct body as [p|]; [|exact Hwf].
  unfold RegisterPayload.Validate.
  destruct (hexRegex (RegisterPayload.Address p)) eqn:Hhex; simpl; [|exact Hwf].
  destruct entropy as [n|]; simpl; [|exact Hwf].
  unfold CreateIfNotExists. simpl.
  destruct (users storage !! ToLower (RegisterPayload.Address p)); simpl; [exact Hwf|].
  apply (keys_canonical_insert storage
           {| Address := ToLower (RegisterPayload.Address p); Nonce := Text10 n |} Hwf).
  - apply ToLower_idemp.
  - now apply hexRegex_ToLower.
Qed.

Lemma Authenticate_keys crypto storage address nonce sigHex entropy :
  keys_canonical storage ->
  keys_canonical (snd (Authenticate crypto storage address nonce sigHex entropy)).
Proof.
  intros Hwf. rewrite Authenticate_cases.
  destruct (users storage !! address) as [user|] eqn:Hget; [|exact Hwf].
  destruct (negb (String.eqb (Nonce user) nonce)); [exact Hwf|].
  destruct (recover_address crypto nonce sigHex) as [[reason|a]|]; try exact Hwf.
  destruct (negb (String.eqb (Address user) a)); [exact Hwf|].
  destruct entropy as [n|]; [|exact Hwf].
  destruct (Hwf _ _ Hget) as (Haddr & Hlow & Hhex).
  apply (keys_canonical_insert storage {| Address := Address user; Nonce := Text10 n |} Hwf);
    simpl; now rewrite Haddr.
Qed.

Lemma SigninHandler_storage crypto lib storage jwtProvider body entropy now :
  snd (SigninHandler crypto lib storage jwtProvider body entropy now) = storage \/
  exists p, body = Some p /\
    snd (SigninHandler crypto lib storage jwtProvider body entropy now) =
    snd (Authenticate crypto storage (ToLower (SigninPayload.Address p))
           (SigninPayload.Nonce p) (SigninPayload.Sig p) entropy).
Proof.
  unfold SigninHandler. destruct body as [p|]; [|now left].
  destruct (SigninPayload.Validate p); [now left|].
  right. exists p. split; [reflexivity|].
  destruct (Authenticate _ _ _ _ _ _) as [[[user [e|]]|why] storage']; simpl;
    try reflexivity.
  - destruct e; reflexivity.
  - destruct (CreateStandard _ _ _ _) as [tok [e|]]; reflexivity.
Qed.

Lemma serve_keys crypto lib jwtProvider storage req :
  keys_canonical storage -> keys_canonical (snd (serve crypto lib jwtProvider storage req)).
Proof.
  intros Hwf. destruct req as [body entropy|address|body entropy now]; simpl.
  - pose proof (RegisterHandler_keys storage body entropy Hwf) as H.
    destruct (RegisterHandler storage body entropy). exact H.
  - exact Hwf.
  - destruct (SigninHandler_storage crypto lib storage jwtProvider body entropy now)
      as [-> | (p & _ & ->)]; [exact Hwf|].
    now apply Authenticate_keys.
Qed.

Lemma run_keys crypto lib jwtProvider reqs storage :
  keys_canonical storage -> keys_canonical (run crypto lib jwtProvider storage reqs).
Proof.
  revert storage. induction reqs as [|req reqs IH]; intros storage Hwf; [exact Hwf|].
  apply IH. now apply serve_keys.
Qed.

Lemma reachable_keys crypto lib jwtProvider storage :
  reachable crypto lib jwtProvider storage -> keys_canonical storage.
Proof. intros [reqs ->]. apply run_keys, keys_canonical_empty. Qed.

(** ** The sign-in handler on a validated request *)

Lemma SigninHandler_valid crypto lib storage jwtProvider p entropy now :
  SigninPayload.Validate p = None ->
  SigninHandler crypto lib storage jwtProvider (Some p) entropy now =
  match Authenticate crypto storage (ToLower (SigninPayload.Address p))
          (SigninPayload.Nonce p) (SigninPayload.Sig p) entropy with
  | (Panics why, storage') => (Panics why, storage')
  | (Returns (_, Some ErrAuthError), storage') =>
      (Returns (WriteHeader StatusUnauthorized), storage')
  | (Returns (_, Some _), storage') =>
      (Returns (WriteHeader StatusInternalServerError), storage')
  | (Returns (user, None), storage') =>
      match CreateStandard lib jwtProvider now (Address user) with
      | (_, Some _) => (Returns (WriteHeader StatusInternalServerError), storage')
      | (signedToken, None) =>
          (Returns (renderJson StatusOK (AccessBody signedToken)), storage')
      end
  end.
Proof.
  intros Hval. unfold SigninHandler. rewrite Hval.
  destruct (Authenticate _ _ _ _ _ _) as [[[user [e|]]|why] storage']; reflexivity.
Qed.

Lemma demo_storage_reachable : reachable demo_crypto demo_jwt demo_provider demo_storage.
Proof. exists demo_history. vm_compute. reflexivity. Qed.

(** ** C10: the record travels with [ErrAuthError] *)

(** C10. Whenever [Authenticate] returns [ErrAuthError] — which it does for a
    nonce mismatch and for a recovered address that differs from the record's,
    and for nothing else — its first result is the record stored under the
    address, current nonce included, and the registry is as it was. *)
Theorem Authenticate_AuthError_returns_stored_record
    crypto storage address nonce sigHex entropy user storage' :
  Authenticate crypto storage address nonce sigHex entropy
    = (Returns (user, Some ErrAuthError), storage') ->
  storage' = storage /\
  users storage !! address = Some user /\
  (Nonce user <> nonce \/
   exists a, recover_address crypto nonce sigHex = Returns (inr a) /\ a <> Address user).
Proof.
  rewrite Authenticate_cases.
  destruct (users storage !! address) as [u|]; [|discriminate].
  destruct (String.eqb (Nonce u) nonce) eqn:Hn; simpl.
  - destruct (recover_address crypto nonce sigHex) as [[reason|a]|]; try discriminate.
    destruct (String.eqb (Address u) a) eqn:Ha; simpl.
    + destruct entropy; discriminate.
    + intros [= -> <-]. split; [reflexivity|]. split; [reflexivity|]. right. exists a.
      split; [reflexivity|]. apply String.eqb_neq in Ha. congruence.
  - intros [= -> <-]. split; [reflexivity|]. split; [reflexivity|]. left. now apply String.eqb_neq.
Qed.

Lemma Authenticate_AuthError_returns_stored_record_witness :
  demo_storage = demo_storage /\
  users demo_storage !! demo_address = Some {| Address := demo_address; Nonce := "5" |} /\
  (Nonce {| Address := demo_address; Nonce := "5" |} <> "6" \/
   exists a, recover_address demo_crypto "6" demo_sig_5 = Returns (inr a) /\
             a <> Address {| Address := demo_address; Nonce := "5" |}).
Proof.
  apply (Authenticate_AuthError_returns_stored_record demo_crypto demo_storage
           demo_address "6" demo_sig_5 (RandOk 7)).
  vm_compute. reflexivity.
Defined.

(** ** C6: mismatches are [ErrAuthError] and 401 *)

(** C6. On a registry the server can be in, a validated sign-in for a
    registered address whose nonce is not the stored one, or whose nonce is
    the stored one and whose signature recovers to another address than the
    (lowercased) claimed one, makes [Authenticate] return [ErrAuthError] and
    the handler answer 401; the registry is not changed. *)
Theorem mismatch_is_Unauthorized crypto lib jwtProvider storage p entropy now user :
  reachable crypto lib jwtProvider storage ->
  SigninPayload.Validate p = None ->
  users storage !! ToLower (SigninPayload.Address p) = Some user ->
  (Nonce user <> SigninPayload.Nonce p \/
   (Nonce user = SigninPayload.Nonce p /\
    exists a, recover_address crypto (SigninPayload.Nonce p) (SigninPayload.Sig p)
                = Returns (inr a) /\
              a <> ToLower (SigninPayload.Address p))) ->
  Authenticate crypto storage (ToLower (SigninPayload.Address p))
    (SigninPayload.Nonce p) (SigninPayload.Sig p) entropy
    = (Returns (user, Some ErrAuthError), storage) /\
  SigninHandler crypto lib storage jwtProvider (Some p) entropy now
    = (Returns (WriteHeader StatusUnauthorized), storage).
Proof.
  intros Hreach Hval Hget Hcause.
  assert (Hauth : Authenticate crypto storage (ToLower (SigninPayload.Address p))
            (SigninPayload.Nonce p) (SigninPayload.Sig p) entropy
            = (Returns (user, Some ErrAuthError), storage)).
  { rewrite Authenticate_cases, Hget.
    destruct Hcause as [Hne | (Heq & a & Hrec & Hne)].
    - apply String.eqb_neq in Hne. now rewrite Hne.
    - apply String.eqb_eq in Heq. rewrite Heq, Hrec. simpl.
      destruct (reachable_keys _ _ _ _ Hreach _ _ Hget) as (Haddr & _).
      assert (Hab : String.eqb (Address user) a = false)
        by (apply String.eqb_neq; congruence).
      now rewrite Hab. }
  split; [exact Hauth|].
  now rewrite (SigninHandler_valid _ _ _ _ _ _ _ Hval), Hauth.
Qed.

Lemma mismatch_is_Unauthorized_witness :
  (Authenticate demo_crypto demo_storage (ToLower demo_Address_mixed) "5"
     sig_other_signer (RandOk 7)
     = (Returns ({| Address := demo_address; Nonce := "5" |}, Some ErrAuthError),
        demo_storage)) /\
  SigninHandler demo_crypto demo_jwt demo_storage demo_provider
    (Some (demo_signin "5" sig_other_signer)) (RandOk 7) 0
    = (Returns (WriteHeader StatusUnauthorized), demo_storage).
Proof.
  apply (mismatch_is_Unauthorized demo_crypto demo_jwt demo_provider demo_storage
           (demo_signin "5" sig_other_signer) (RandOk 7) 0
           {| Address := demo_address; Nonce := "5" |}).
  - exact demo_storage_reachable.
  - vm_compute. reflexivity.
  - vm_compute. reflexivity.
  - right. split; [reflexivity|].
    exists "0x1111111111111111111111111111111111111111".
    split; [vm_compute; reflexivity | discriminate].
Defined.

(** ** C4: a failed rotation *)

(** C4. When the record is found, the nonce matches and the signature
    recovers to the record's address, but the entropy source fails,
    [Authenticate] returns the source's error (not [nil], not
    [ErrAuthError]) and the registry it was given, stored nonce included;
    the handler answers 500 and issues no token. *)
Theorem rotation_failure_keeps_nonce
    crypto lib jwtProvider storage address nonce sigHex user :
  users storage !! address = Some user ->
  Nonce user = nonce ->
  recover_address crypto nonce sigHex = Returns (inr (Address user)) ->
  Authenticate crypto storage address nonce sigHex RandFail
    = (Returns (user, Some ErrRandRead), storage) /\
  forall p now,
    SigninPayload.Validate p = None ->
    ToLower (SigninPayload.Address p) = address ->
    SigninPayload.Nonce p = nonce ->
    SigninPayload.Sig p = sigHex ->
    SigninHandler crypto lib storage jwtProvider (Some p) RandFail now
      = (Returns (WriteHeader StatusInternalServerError), storage).
Proof.
  intros Hget Hnonce Hrec.
  assert (Hauth : Authenticate crypto storage address nonce sigHex RandFail
            = (Returns (user, Some ErrRandRead), storage)).
  { rewrite Authenticate_cases, Hget, Hrec.
    apply String.eqb_eq in Hnonce. rewrite Hnonce, String.eqb_refl. reflexivity. }
  split; [exact Hauth|].
  intros p now Hval <- <- <-.
  now rewrite (SigninHandler_valid _ _ _ _ _ _ _ Hval), Hauth.
Qed.

Lemma rotation_failure_keeps_nonce_witness :
  Authenticate demo_crypto demo_storage demo_address "5" demo_sig_5 RandFail
    = (Returns ({| Address := demo_address; Nonce := "5" |}, Some ErrRandRead),
       demo_storage) /\
  forall p now,
    SigninPayload.Validate p = None ->
    ToLower (SigninPayload.Address p) = demo_address ->
    SigninPayload.Nonce p = "5" ->
    SigninPayload.Sig p = demo_sig_5 ->
    SigninHandler demo_crypto demo_jwt demo_storage demo_provider (Some p) RandFail now
      = (Returns (WriteHeader StatusInternalServerError), demo_storage).
Proof.
  apply (rotation_failure_keeps_nonce demo_crypto demo_jwt demo_provider demo_storage
           demo_address "5" demo_sig_5 {| Address := demo_address; Nonce := "5" |});
    vm_compute; reflexivity.
Defined.

(** ** C2: signatures that cannot be used *)

(** A signature string that [hexutil] does not decode makes [MustDecode]
    panic, and one that decodes to fewer than 65 bytes makes the index
    expression panic: [Authenticate] does not return, whatever the
    primitives. *)
Lemma Authenticate_panics crypto storage address nonce sigHex entropy user :
  users storage !! address = Some user ->
  Nonce user = nonce ->
  (hexutil_Decode sigHex = None \/
   exists sig, hexutil_Decode sigHex = Some sig /\ (length sig <= 64)%nat) ->
  exists why,
    Authenticate crypto storage address nonce sigHex entropy = (Panics why, storage).
Proof.
  intros Hget Hnonce Hsig. rewrite Authenticate_cases, Hget.
  apply String.eqb_eq in Hnonce. rewrite Hnonce. simpl.
  unfold recover_address, MustDecode.
  destruct Hsig as [-> | (sig & -> & Hlen)]; [eexists; reflexivity|].
  unfold sub27_at, RecoveryIDOffset.
  rewrite (proj2 (lookup_ge_None sig 64)) by lia. eexists; reflexivity.
Qed.

Example SigninHandler_panics_on_non_hex_signature :
  SigninHandler demo_crypto demo_jwt demo_storage demo_provider
    (Some (demo_signin "5" "0xzz")) (RandOk 7) 0
  = (Panics "hexutil: invalid hex string", demo_storage).
Proof. vm_compute. reflexivity. Qed.

Example SigninHandler_panics_on_short_signature :
  SigninHandler demo_crypto demo_jwt demo_storage demo_provider
    (Some (demo_signin "5" "0x1b")) (RandOk 7) 0
  = (Panics "index out of range", demo_storage).
Proof. vm_compute. reflexivity. Qed.

(** C2, as the code has it. When the record is found and the nonce matches,
    and the signature string decodes to at least 65 bytes from which
    [SigToPub] recovers no key, [Authenticate] returns the recovery error
    itself; the handler, which knows [ErrAuthError] only, answers 500 —
    not a client error — and the registry is unchanged. *)
Theorem unrecoverable_signature_is_internal_error
    crypto lib jwtProvider storage address nonce sigHex user reason entropy :
  users storage !! address = Some user ->
  Nonce user = nonce ->
  recover_address crypto nonce sigHex = Returns (inl reason) ->
  Authenticate crypto storage address nonce sigHex entropy
    = (Returns (user, Some (ErrRecover reason)), storage) /\
  is_client_error (WriteHeader StatusInternalServerError) = false /\
  forall p now,
    SigninPayload.Validate p = None ->
    ToLower (SigninPayload.Address p) = address ->
    SigninPayload.Nonce p = nonce ->
    SigninPayload.Sig p = sigHex ->
    SigninHandler crypto lib storage jwtProvider (Some p) entropy now
      = (Returns (WriteHeader StatusInternalServerError), storage).
Proof.
  intros Hget Hnonce Hrec.
  assert (Hauth : Authenticate crypto storage address nonce sigHex entropy
            = (Returns (user, Some (ErrRecover reason)), storage)).
  { rewrite Authenticate_cases, Hget, Hrec.
    apply String.eqb_eq in Hnonce. now rewrite Hnonce. }
  split; [exact Hauth|]. split; [reflexivity|].
  intros p now Hval <- <- <-.
  now rewrite (SigninHandler_valid _ _ _ _ _ _ _ Hval), Hauth.
Qed.

Lemma unrecoverable_signature_is_internal_error_witness :
  Authenticate demo_crypto demo_storage demo_address "5" sig_66_bytes (RandOk 7)
    = (Returns ({| Address := demo_address; Nonce := "5" |},
                Some (ErrRecover "invalid signature length")), demo_storage) /\
  is_client_error (WriteHeader StatusInternalServerError) = false /\
  forall p now,
    SigninPayload.Validate p = None ->
    ToLower (SigninPayload.Address p) = demo_address ->
    SigninPayload.Nonce p = "5" ->
    SigninPayload.Sig p = sig_66_bytes ->
    SigninHandler demo_crypto demo_jwt demo_storage demo_provider (Some p) (RandOk 7) now
      = (Returns (WriteHeader StatusInternalServerError), demo_storage).
Proof.
  apply (unrecoverable_signature_is_internal_error demo_crypto demo_jwt demo_provider
           demo_storage demo_address "5" sig_66_bytes
           {| Address := demo_address; Nonce := "5" |});
    vm_compute; reflexivity.
Defined.

(** C2, refuted as stated: a validated sign-in with the stored nonce and a
    signature of 66 bytes is answered with 500, which is not a client
    error. *)
Lemma malformed_signature_not_client_error :
  SigninPayload.Validate (demo_signin "5" sig_66_bytes) = None /\
  Nonce <$> users demo_storage !! ToLower demo_Address_mixed = Some "5" /\
  length <$> hexutil_Decode sig_66_bytes = Some 66%nat /\
  SigninHandler demo_crypto demo_jwt demo_storage demo_provider
    (Some (demo_signin "5" sig_66_bytes)) (RandOk 7) 0
    = (Returns (WriteHeader StatusInternalServerError), demo_storage) /\
  is_client_error (WriteHeader StatusInternalServerError) = false.
Proof. vm_compute. repeat split; reflexivity. Qed.

(** ** C8: invalid input touches nothing *)

Lemma SigninPayload_Validate_fails (p : SigninPayload.t) :
  hexRegex (SigninPayload.Address p) = false \/
  nonceRegex (SigninPayload.Nonce p) = false \/
  SigninPayload.Sig p = EmptyString ->
  exists e, SigninPayload.Validate p = Some e.
Proof.
  unfold SigninPayload.Validate. intros [Ha | [Hn | Hs]].
  - rewrite Ha. eauto.
  - destruct (hexRegex _); simpl; [rewrite Hn|]; eauto.
  - destruct (hexRegex _); simpl; [|eauto].
    destruct (nonceRegex _); simpl; [|eauto]. rewrite Hs. eauto.
Qed.

(** C8. A registration or nonce lookup whose address does not match the
    pattern, and a sign-in whose address does not match, whose nonce is not
    all digits or whose signature is empty, is answered with 400 whatever
    the registry holds, and the registry is returned as it was. *)
Theorem invalid_input_is_BadRequest crypto lib jwtProvider storage :
  (forall p entropy,
     hexRegex (RegisterPayload.Address p) = false ->
     RegisterHandler storage (Some p) entropy = (WriteHeader StatusBadRequest, storage)) /\
  (forall address,
     hexRegex address = false ->
     UserNonceHandler storage address = WriteHeader StatusBadRequest) /\
  (forall p entropy now,
     hexRegex (SigninPayload.Address p) = false \/
     nonceRegex (SigninPayload.Nonce p) = false \/
     SigninPayload.Sig p = EmptyString ->
     SigninHandler crypto lib storage jwtProvider (Some p) entropy now
       = (Returns (WriteHeader StatusBadRequest), storage)).
Proof.
  split; [|split].
  - intros p entropy Hbad. unfold RegisterHandler, RegisterPayload.Validate.
    now rewrite Hbad.
  - intros address Hbad. unfold UserNonceHandler. now rewrite Hbad.
  - intros p entropy now Hbad.
    destruct (SigninPayload_Validate_fails p Hbad) as [e He].
    unfold SigninHandler. now rewrite He.
Qed.

Lemma invalid_input_is_BadRequest_witness :
  RegisterHandler demo_storage (Some {| RegisterPayload.Address := "0xzz" |}) (RandOk 1)
    = (WriteHeader StatusBadRequest, demo_storage) /\
  UserNonceHandler demo_storage "0xabcdef0123456789abcdef0123456789abcdef0"
    = WriteHeader StatusBadRequest /\
  SigninHandler demo_crypto demo_jwt demo_storage demo_provider
    (Some (demo_signin "5a" demo_sig_5)) (RandOk 1) 0
    = (Returns (WriteHeader StatusBadRequest), demo_storage) /\
  SigninHandler demo_crypto demo_jwt demo_storage demo_provider
    (Some (demo_signin "5" "")) (RandOk 1) 0
    = (Returns (WriteHeader StatusBadRequest), demo_storage).
Proof.
  destruct (invalid_input_is_BadRequest demo_crypto demo_jwt demo_provider demo_storage)
    as (Hreg & Hnonce & Hsignin).
  split; [apply Hreg; reflexivity|].
  split; [apply Hnonce; reflexivity|].
  split; apply Hsignin; [right; left|right; right]; reflexivity.
Defined.

(** ** C9: one record per address, whatever the case *)

Lemma canonical_keys_unique storage k1 k2 u1 u2 :
  keys_canonical storage ->
  users storage !! k1 = Some u1 -> users storage !! k2 = Some u2 ->
  ToLower k1 = ToLower k2 -> k1 = k2 /\ u1 = u2.
Proof.
  intros Hwf H1 H2 Heq.
  destruct (Hwf _ _ H1) as (_ & Hl1 & _). destruct (Hwf _ _ H2) as (_ & Hl2 & _).
  assert (k1 = k2) by congruence. subst k2. split; congruence.
Qed.

(** C9. On every registry the server can be in, each key is a lowercase
    address (the address of its record), so two keys that agree up to case
    are one key with one record; and the three handlers look an address up,
    or insert it, under its lowercase form only: two spellings of one valid
    address get the same answer and leave the same registry. *)
Theorem case_variants_same_user crypto lib jwtProvider storage A A' :
  reachable crypto lib jwtProvider storage ->
  hexRegex A = true -> hexRegex A' = true -> ToLower A = ToLower A' ->
  (forall k u, users storage !! k = Some u ->
     k = ToLower k /\ Address u = k /\ hexRegex k = true) /\
  (forall k1 k2 u1 u2,
     users storage !! k1 = Some u1 -> users storage !! k2 = Some u2 ->
     ToLower k1 = ToLower k2 -> k1 = k2 /\ u1 = u2) /\
  (forall entropy,
     RegisterHandler storage (Some {| RegisterPayload.Address := A |}) entropy
     = RegisterHandler storage (Some {| RegisterPayload.Address := A' |}) entropy) /\
  UserNonceHandler storage A = UserNonceHandler storage A' /\
  (forall nonce sig entropy now,
     SigninHandler crypto lib storage jwtProvider
       (Some {| SigninPayload.Address := A; SigninPayload.Nonce := nonce;
                SigninPayload.Sig := sig |}) entropy now
     = SigninHandler crypto lib storage jwtProvider
         (Some {| SigninPayload.Address := A'; SigninPayload.Nonce := nonce;
                  SigninPayload.Sig := sig |}) entropy now) /\
  (forall u, users storage !! ToLower A = Some u ->
     RegisterHandler storage (Some {| RegisterPayload.Address := A' |}) (RandOk 0)
       = (WriteHeader StatusConflict, storage) /\
     UserNonceHandler storage A' = renderJson StatusOK (NonceBody (Nonce u))).
Proof.
  intros Hreach HA HA' Hlow.
  pose proof (reachable_keys _ _ _ _ Hreach) as Hwf.
  split; [|split; [|split; [|split; [|split]]]].
  - intros k u Hk. destruct (Hwf _ _ Hk) as (? & ? & ?). auto.
  - intros k1 k2 u1 u2. now apply canonical_keys_unique.
  - intros entropy. unfold RegisterHandler, RegisterPayload.Validate. simpl.
    now rewrite HA, HA', Hlow.
  - unfold UserNonceHandler. now rewrite HA, HA', Hlow.
  - intros nonce sig entropy now.
    unfold SigninHandler, SigninPayload.Validate. simpl.
    now rewrite HA, HA', Hlow.
  - intros u Hu. rewrite Hlow in Hu. split.
    + unfold RegisterHandler, RegisterPayload.Validate, CreateIfNotExists. simpl.
      now rewrite HA', Hu.
    + unfold UserNonceHandler, Get. now rewrite HA', Hu.
Qed.

Lemma case_variants_same_user_witness :
  UserNonceHandler demo_storage demo_Address_mixed
    = UserNonceHandler demo_storage demo_address /\
  RegisterHandler demo_storage (Some {| RegisterPayload.Address := demo_address |}) (RandOk 0)
    = (WriteHeader StatusConflict, demo_storage) /\
  UserNonceHandler demo_storage demo_address = renderJson StatusOK (NonceBody "5").
Proof.
  destruct (case_variants_same_user demo_crypto demo_jwt demo_provider demo_storage
              demo_Address_mixed demo_address)
    as (_ & _ & _ & Hnonce & _ & Hsame);
    [exact demo_storage_reachable | reflexivity | reflexivity | reflexivity |].
  split; [exact Hnonce|].
  apply (Hsame {| Address := demo_address; Nonce := "5" |}).
  vm_compute. reflexivity.
Defined.

(** ** How a request changes the registry *)

(** A request leaves the registry alone or writes one record, under the
    record's own address, whose nonce is the number the request drew. *)
Lemma serve_storage_shape crypto lib jwtProvider storage req :
  snd (serve crypto lib jwtProvider storage req) = storage \/
  exists n a,
    request_draw req = Some n /\
    snd (serve crypto lib jwtProvider storage req)
      = {| users := <[a := {| Address := a; Nonce := Text10 n |}]> (users storage) |}.
Proof.
  destruct req as [body entropy|address|body entropy now]; simpl.
  - unfold RegisterHandler.
    destruct body as [p|]; [|now left].
    destruct (RegisterPayload.Validate p); [now left|].
    destruct entropy as [n|]; simpl; [|now left].
    unfold CreateIfNotExists. simpl.
    destruct (users storage !! ToLower (RegisterPayload.Address p)); simpl; [now left|].
    right. exists n, (ToLower (RegisterPayload.Address p)). split; reflexivity.
  - now left.
  - destruct (SigninHandler_storage crypto lib storage jwtProvider body entropy now)
      as [-> | (p & _ & ->)]; [now left|].
    rewrite Authenticate_cases.
    destruct (users storage !! _) as [user|]; [|now left].
    destruct (negb (String.eqb (Nonce user) _)); [now left|].
    destruct (recover_address crypto _ _) as [[reason|a]|]; try now left.
    destruct (negb (String.eqb (Address user) a)); [now left|].
    destruct entropy as [n|]; [|now left].
    right. exists n, (Address user). split; reflexivity.
Qed.

Lemma serve_keeps_users crypto lib jwtProvider storage req k :
  is_Some (users storage !! k) ->
  is_Some (users (snd (serve crypto lib jwtProvider storage req)) !! k).
Proof.
  intros Hk.
  destruct (serve_storage_shape crypto lib jwtProvider storage req)
    as [-> | (n & a & _ & ->)]; [exact Hk|].
  simpl. rewrite lookup_insert. case_decide; [eauto|exact Hk].
Qed.

Lemma run_keeps_users crypto lib jwtProvider reqs storage k :
  is_Some (users storage !! k) ->
  is_Some (users (run crypto lib jwtProvider storage reqs) !! k).
Proof.
  revert storage. induction reqs as [|req reqs IH]; intros storage Hk; [exact Hk|].
  apply IH. now apply serve_keeps_users.
Qed.

Lemma RegisterHandler_taken storage A n :
  hexRegex A = true -> is_Some (users storage !! ToLower A) ->
  RegisterHandler storage (Some {| RegisterPayload.Address := A |}) (RandOk n)
    = (WriteHeader StatusConflict, storage).
Proof.
  intros HA [u Hu]. unfold RegisterHandler, RegisterPayload.Validate, CreateIfNotExists.
  simpl. now rewrite HA, Hu.
Qed.

(** ** C7: registering twice *)

(** C7. Registering a valid address that has no record yet, with a working
    entropy source, answers 201 and stores the record under the lowercase
    address; registering it again — at once or after any further requests,
    in any spelling — answers 409 and changes nothing. In the registry this
    is [CreateIfNotExists], whose test and insertion are one transition: of
    two calls for one address the first inserts, the second gets
    [ErrUserExists] and the first record stays. *)
Theorem Register_twice crypto lib jwtProvider storage A n1 :
  hexRegex A = true ->
  users storage !! ToLower A = None ->
  RegisterHandler storage (Some {| RegisterPayload.Address := A |}) (RandOk n1)
    = (WriteHeader StatusCreated,
       {| users := <[ToLower A := {| Address := ToLower A; Nonce := Text10 n1 |}]>
                     (users storage) |}) /\
  (forall n2,
     RegisterHandler
       (snd (RegisterHandler storage (Some {| RegisterPayload.Address := A |}) (RandOk n1)))
       (Some {| RegisterPayload.Address := A |}) (RandOk n2)
     = (WriteHeader StatusConflict,
        snd (RegisterHandler storage (Some {| RegisterPayload.Address := A |}) (RandOk n1)))) /\
  (forall reqs A' n2,
     hexRegex A' = true -> ToLower A' = ToLower A ->
     RegisterHandler
       (run crypto lib jwtProvider
          (snd (RegisterHandler storage (Some {| RegisterPayload.Address := A |}) (RandOk n1)))
          reqs)
       (Some {| RegisterPayload.Address := A' |}) (RandOk n2)
     = (WriteHeader StatusConflict,
        run crypto lib jwtProvider
          (snd (RegisterHandler storage (Some {| RegisterPayload.Address := A |}) (RandOk n1)))
          reqs)) /\
  (forall u1 u2,
     Address u1 = ToLower A -> Address u2 = ToLower A ->
     fst (CreateIfNotExists storage u1) = None /\
     CreateIfNotExists (snd (CreateIfNotExists storage u1)) u2
       = (Some ErrUserExists, snd (CreateIfNotExists storage u1)) /\
     users (snd (CreateIfNotExists storage u1)) !! ToLower A = Some u1).
Proof.
  intros HA Hfree.
  assert (Hfirst :
    RegisterHandler storage (Some {| RegisterPayload.Address := A |}) (RandOk n1)
    = (WriteHeader StatusCreated,
       {| users := <[ToLower A := {| Address := ToLower A; Nonce := Text10 n1 |}]>
                     (users storage) |})).
  { unfold RegisterHandler, RegisterPayload.Validate, CreateIfNotExists. simpl.
    now rewrite HA, Hfree. }
  assert (Hnow : is_Some (users (snd (RegisterHandler storage
            (Some {| RegisterPayload.Address := A |}) (RandOk n1))) !! ToLower A)).
  { rewrite Hfirst. simpl. rewrite lookup_insert_eq. eauto. }
  split; [exact Hfirst|]. split; [|split].
  - intros n2. now apply RegisterHandler_taken.
  - intros reqs A' n2 HA' Hlow. apply RegisterHandler_taken; [exact HA'|].
    rewrite Hlow. now apply run_keeps_users.
  - intros u1 u2 H1 H2.
    assert (Hc : CreateIfNotExists storage u1
              = (None, {| users := <[ToLower A := u1]> (users storage) |})).
    { unfold CreateIfNotExists. now rewrite H1, Hfree. }
    rewrite Hc. simpl. split; [reflexivity|].
    unfold CreateIfNotExists. simpl.
    rewrite H2, lookup_insert_eq. split; reflexivity.
Qed.

Lemma Register_twice_witness :
  RegisterHandler NewMemStorage (Some {| RegisterPayload.Address := demo_Address_mixed |})
    (RandOk 5)
    = (WriteHeader StatusCreated, demo_storage) /\
  RegisterHandler demo_storage (Some {| RegisterPayload.Address := demo_Address_mixed |})
    (RandOk 6)
    = (WriteHeader StatusConflict, demo_storage).
Proof.
  destruct (Register_twice demo_crypto demo_jwt demo_provider NewMemStorage
              demo_Address_mixed 5) as (Hfirst & Hsecond & _);
    [reflexivity | reflexivity |].
  split; [vm_compute; reflexivity | exact (Hsecond 6)].
Defined.

(** ** C1: a consumed nonce *)

(** What a successful [Authenticate] did, on a registry the server can be
    in. *)
Lemma Authenticate_success crypto lib jwtProvider storage address nonce sigHex entropy
    user storage' :
  reachable crypto lib jwtProvider storage ->
  Authenticate crypto storage address nonce sigHex entropy
    = (Returns (user, None), storage') ->
  exists n,
    entropy = RandOk n /\
    user = {| Address := address; Nonce := Text10 n |} /\
    users storage !! address = Some {| Address := address; Nonce := nonce |} /\
    recover_address crypto nonce sigHex = Returns (inr address) /\
    storage' = {| users := <[address := user]> (users storage) |}.
Proof.
  intros Hreach. rewrite Authenticate_cases.
  destruct (users storage !! address) as [u|] eqn:Hget; [|discriminate].
  destruct (reachable_keys _ _ _ _ Hreach _ _ Hget) as (Haddr & _).
  destruct (String.eqb (Nonce u) nonce) eqn:Hn; [|discriminate]. simpl.
  destruct (recover_address crypto nonce sigHex) as [[reason|a]|]; try discriminate.
  destruct (String.eqb (Address u) a) eqn:Ha; [|discriminate]. simpl.
  destruct entropy as [n|]; [|discriminate].
  apply String.eqb_eq in Hn, Ha. intros [= <- <-]. exists n.
  destruct u as [ua un]. simpl in *. subst. auto.
Qed.

Lemma Authenticate_stale crypto storage address nonce sigHex entropy u :
  users storage !! address = Some u ->
  Nonce u <> nonce ->
  Authenticate crypto storage address nonce sigHex entropy
    = (Returns (u, Some ErrAuthError), storage).
Proof.
  intros Hget Hne. rewrite Authenticate_cases, Hget.
  apply String.eqb_neq in Hne. now rewrite Hne.
Qed.

(** While no request draws the nonce, a record whose nonce differs from it
    is followed by records whose nonce differs from it. *)
Lemma run_nonce_differs crypto lib jwtProvider reqs storage address nonce :
  avoids nonce reqs ->
  (exists u, users storage !! address = Some u /\ Nonce u <> nonce) ->
  exists u, users (run crypto lib jwtProvider storage reqs) !! address = Some u /\
            Nonce u <> nonce.
Proof.
  revert storage. induction reqs as [|req reqs IH]; intros storage Hav Hinv; [exact Hinv|].
  apply IH.
  - intros r n Hin. apply Hav. now right.
  - destruct (serve_storage_shape crypto lib jwtProvider storage req)
      as [-> | (n & a & Hdraw & ->)]; [exact Hinv|].
    simpl. rewrite lookup_insert. case_decide; [|exact Hinv].
    eexists; split; [reflexivity|]. simpl. apply (Hav req n); [now left|exact Hdraw].
Qed.

(** C1, as the code has it. A successful authentication has stored the
    newly drawn nonce under the address when it returns. If that nonce is
    not the consumed one again, replaying the request fails the nonce check
    with [ErrAuthError]; and so does every later attempt with the consumed
    nonce, after any requests in which no read of the entropy source yields
    that nonce again. *)
Theorem consumed_nonce_rejected
    crypto lib jwtProvider storage address nonce sigHex entropy user storage' :
  reachable crypto lib jwtProvider storage ->
  Authenticate crypto storage address nonce sigHex entropy
    = (Returns (user, None), storage') ->
  users storage' !! address = Some user /\
  (exists n, entropy = RandOk n /\ Nonce user = Text10 n) /\
  (Nonce user <> nonce ->
   (forall entropy',
      Authenticate crypto storage' address nonce sigHex entropy'
        = (Returns (user, Some ErrAuthError), storage')) /\
   (forall reqs sigHex' entropy',
      avoids nonce reqs ->
      exists u,
        Authenticate crypto (run crypto lib jwtProvider storage' reqs)
          address nonce sigHex' entropy'
          = (Returns (u, Some ErrAuthError), run crypto lib jwtProvider storage' reqs))).
Proof.
  intros Hreach Hauth.
  destruct (Authenticate_success _ _ _ _ _ _ _ _ _ _ Hreach Hauth)
    as (n & -> & Huser & _ & _ & ->).
  assert (Hnew : users {| users := <[address := user]> (users storage) |} !! address
                 = Some user) by (simpl; apply lookup_insert_eq).
  split; [exact Hnew|]. split; [exists n; subst user; auto|].
  intros Hfresh. split.
  - intros entropy'. now apply Authenticate_stale.
  - intros reqs sigHex' entropy' Hav.
    destruct (run_nonce_differs crypto lib jwtProvider reqs
                {| users := <[address := user]> (users storage) |} address nonce Hav)
      as (u & Hu & Hne); [eauto|].
    exists u. now apply Authenticate_stale.
Qed.


Lemma consumed_nonce_rejected_witness :
  users (demo_storage_after 7) !! demo_address = Some (demo_user "7") /\
  Authenticate demo_crypto (demo_storage_after 7) demo_address "5" demo_sig_5 (RandOk 9)
    = (Returns (demo_user "7", Some ErrAuthError), demo_storage_after 7).
Proof.
  destruct (consumed_nonce_rejected demo_crypto demo_jwt demo_provider demo_storage
              demo_address "5" demo_sig_5 (RandOk 7) (demo_user "7")
              (demo_storage_after 7))
    as (Hstored & _ & Hreplay).
  - exact demo_storage_reachable.
  - vm_compute. reflexivity.
  - split; [exact Hstored|].
    destruct Hreplay as [Hnow _]; [discriminate|]. apply Hnow.
Defined.

(** The condition on the drawn nonce cannot be dropped, whatever the
    primitives: when the rotation draws the consumed nonce again, the replay
    passes every check again. *)
Lemma replay_succeeds_on_repeated_draw
    crypto lib jwtProvider storage address nonce sigHex n user storage' n' :
  reachable crypto lib jwtProvider storage ->
  Authenticate crypto storage address nonce sigHex (RandOk n)
    = (Returns (user, None), storage') ->
  Text10 n = nonce ->
  fst (Authenticate crypto storage' address nonce sigHex (RandOk n'))
    = Returns ({| Address := address; Nonce := Text10 n' |}, None).
Proof.
  intros Hreach Hauth Hsame.
  destruct (Authenticate_success _ _ _ _ _ _ _ _ _ _ Hreach Hauth)
    as (m & [= <-] & -> & _ & Hrec & ->).
  rewrite Authenticate_cases. simpl. rewrite lookup_insert_eq. simpl.
  rewrite Hsame, String.eqb_refl, Hrec. simpl. now rewrite String.eqb_refl.
Qed.

(** C1, refuted as stated: [rand.Int] may return any number below [max],
    also the one it returned at registration. The sign-in then succeeds, the
    stored nonce is ["5"] again, and the replay of the same request
    succeeds as well. *)
Lemma replay_succeeds_when_draw_repeats :
  rand_in_range (RandOk 5) /\
  Authenticate demo_crypto demo_storage demo_address "5" demo_sig_5 (RandOk 5)
    = (Returns (demo_user "5", None), demo_storage_after 5) /\
  users (demo_storage_after 5) !! demo_address = Some (demo_user "5") /\
  Authenticate demo_crypto (demo_storage_after 5) demo_address "5" demo_sig_5 (RandOk 6)
    = (Returns (demo_user "6", None), demo_storage_after 6).
Proof.
  split; [unfold rand_in_range, max; lia|].
  vm_compute. repeat split; reflexivity.
Qed.

(** ** C3: sign-ins that race *)

Lemma auth_local_cases crypto user nonce sigHex entropy :
  auth_local crypto user None nonce sigHex entropy =
  if negb (String.eqb (Nonce user) nonce) then
    AuthDone (Returns (user, Some ErrAuthError))
  else
    match recover_address crypto nonce sigHex with
    | Panics why => AuthDone (Panics why)
    | Returns (inl reason) => AuthDone (Returns (user, Some (ErrRecover reason)))
    | Returns (inr a) =>
      if negb (String.eqb (Address user) a) then
        AuthDone (Returns (user, Some ErrAuthError))
      else
        match entropy with
        | RandFail => AuthDone (Returns (user, Some ErrRandRead))
        | RandOk n => AuthCommit {| Address := Address user; Nonce := Text10 n |}
        end
    end.
Proof.
  unfold auth_local, recover_address.
  destruct (negb (String.eqb (Nonce user) nonce)); [reflexivity|].
  destruct (MustDecode sigHex) as [sig|]; [|reflexivity].
  destruct (sub27_at RecoveryIDOffset sig) as [sig'|]; [|reflexivity].
  destruct (SigToPub crypto _ sig') as [reason|pk]; [reflexivity|].
  destruct (negb (String.eqb (Address user) _)); [reflexivity|].
  destruct entropy; reflexivity.
Qed.

#[local] Arguments auth_local : simpl never.

(** The steps are those of [Authenticate]: a goroutine that runs alone ends
    with its result and its registry. *)
Lemma schedule_alone crypto storage address nonce sigHex entropy :
  schedule crypto [0; 0; 0]%nat [AuthStart address nonce sigHex entropy] storage
  = ([AuthDone (fst (Authenticate crypto storage address nonce sigHex entropy))],
     snd (Authenticate crypto storage address nonce sigHex entropy)).
Proof.
  rewrite Authenticate_cases. simpl. unfold Get.
  destruct (users storage !! address) as [user|]; simpl; [|reflexivity].
  rewrite auth_local_cases.
  destruct (negb (String.eqb (Nonce user) nonce)); [reflexivity|].
  destruct (recover_address crypto nonce sigHex) as [[reason|a]|]; try reflexivity.
  destruct (negb (String.eqb (Address user) a)); [reflexivity|].
  destruct entropy; reflexivity.
Qed.

(** C3, on the code. Two sign-ins with the same request, each of which would
    succeed alone, both succeed when both have read the record before either
    writes it: [Get] and [Update] lock separately, and nothing compares the
    nonce again at the write. *)
Theorem racing_signins_both_succeed
    crypto lib jwtProvider storage address nonce sigHex n1 n2 user storage' :
  reachable crypto lib jwtProvider storage ->
  Authenticate crypto storage address nonce sigHex (RandOk n1)
    = (Returns (user, None), storage') ->
  exists final,
    schedule crypto [0; 1; 0; 1; 0; 1]%nat
      [AuthStart address nonce sigHex (RandOk n1);
       AuthStart address nonce sigHex (RandOk n2)] storage
    = ([AuthDone (Returns ({| Address := address; Nonce := Text10 n1 |}, None));
        AuthDone (Returns ({| Address := address; Nonce := Text10 n2 |}, None))],
       final) /\
    users final !! address = Some {| Address := address; Nonce := Text10 n2 |}.
Proof.
  intros Hreach Hauth.
  destruct (Authenticate_success _ _ _ _ _ _ _ _ _ _ Hreach Hauth)
    as (m & [= <-] & -> & Hget & Hrec & ->).
  exists {| users := <[address := {| Address := address; Nonce := Text10 n2 |}]>
                       (<[address := {| Address := address; Nonce := Text10 n1 |}]>
                          (users storage)) |}.
  split; [|cbn; apply lookup_insert_eq].
  repeat (progress (cbn; unfold Get;
                    rewrite ?Hget, ?auth_local_cases, ?String.eqb_refl, ?Hrec)).
  reflexivity.
Qed.

Lemma racing_signins_both_succeed_witness :
  exists final,
    schedule demo_crypto [0; 1; 0; 1; 0; 1]%nat
      [AuthStart demo_address "5" demo_sig_5 (RandOk 7);
       AuthStart demo_address "5" demo_sig_5 (RandOk 8)] demo_storage
    = ([AuthDone (Returns ({| Address := demo_address; Nonce := Text10 7 |}, None));
        AuthDone (Returns ({| Address := demo_address; Nonce := Text10 8 |}, None))],
       final) /\
    users final !! demo_address = Some {| Address := demo_address; Nonce := Text10 8 |}.
Proof.
  apply (racing_signins_both_succeed demo_crypto demo_jwt demo_provider demo_storage
           demo_address "5" demo_sig_5 7 8 (demo_user "7") (demo_storage_after 7)).
  - exact demo_storage_reachable.
  - vm_compute. reflexivity.
Defined.

Example sequential_signins_second_fails :
  fst (schedule demo_crypto [0; 0; 0; 1; 1; 1]%nat
         [AuthStart demo_address "5" demo_sig_5 (RandOk 7);
          AuthStart demo_address "5" demo_sig_5 (RandOk 8)] demo_storage)
  = [AuthDone (Returns (demo_user "7", None));
     AuthDone (Returns (demo_user "7", Some ErrAuthError))].
Proof. vm_compute. reflexivity. Qed.

(** ** C5: token verification *)

Lemma GetSigningMethod_HMAC name m :
  GetSigningMethod name = Some m ->
  is_SigningMethodHMAC m = true ->
  name ∈ ["HS256"; "HS384"; "HS512"] /\ m = SigningMethodHMAC name.
Proof.
  unfold GetSigningMethod.
  repeat case_bool_decide; intros [= <-]; simpl; try discriminate. auto.
Qed.

Lemma GetSigningMethod_HS name :
  name ∈ ["HS256"; "HS384"; "HS512"] ->
  GetSigningMethod name = Some (SigningMethodHMAC name).
Proof. intros H. unfold GetSigningMethod. now rewrite bool_decide_eq_true_2. Qed.

Lemma claims_errors_0 c now :
  claims_errors c now = 0 <->
  verifyExp (ExpiresAt c) now false = true /\
  verifyIat (IssuedAt c) now false = true /\
  verifyNbf (NotBefore c) now false = true.
Proof.
  unfold claims_errors.
  destruct (verifyExp _ _ _), (verifyIat _ _ _), (verifyNbf _ _ _); simpl;
    split; try (intros H; discriminate H); try (intros (? & ? & ?); discriminate); auto.
Qed.

Lemma signature_bit_0 (ok : bool) (e : Z) :
  ((if ok then e else Z.lor e ValidationErrorSignatureInvalid) =? 0) = true <->
  ok = true /\ e = 0.
Proof.
  rewrite Z.eqb_eq. destruct ok; [intuition|].
  rewrite Z.lor_eq_0_iff. split; [intros [_ H]; discriminate H|intros [H _]; discriminate H].
Qed.

(** When [Verify] hands out claims. *)
Lemma Verify_accepts lib j now tokenString claims :
  Verify lib j now tokenString = (Some claims, None) <->
  acceptable lib j now tokenString claims.
Proof.
  unfold Verify, ParseWithClaims, ParseUnverified, acceptable. split.
  - destruct (Split_dot tokenString) as [|header [|body [|signature [|]]]];
      try discriminate.
    destruct (DecodeHeader lib header) as [alg|] eqn:Hh; try discriminate.
    destruct (DecodeClaims lib body) as [c|] eqn:Hc; try discriminate.
    destruct alg as [name|]; try discriminate.
    destruct (GetSigningMethod name) as [m|] eqn:Hm; try discriminate.
    cbn [Method Claims Valid nth].
    destruct (is_SigningMethodHMAC m) eqn:Hhmac; simpl; [|discriminate].
    destruct (GetSigningMethod_HMAC name m Hm Hhmac) as [Hname ->].
    cbn [Method_Verify].
    destruct (_ =? 0) eqn:Hzero; simpl; [|discriminate].
    apply signature_bit_0 in Hzero. destruct Hzero as [Hmac Herr].
    apply claims_errors_0 in Herr. intros [= <-].
    exists header, body, signature, name. intuition.
  - intros (header & body & signature & name & -> & Hh & Hc & Hname & Hmac & Hexp).
    rewrite Hh, Hc, (GetSigningMethod_HS name Hname).
    cbn [Method Claims Valid nth is_SigningMethodHMAC negb Method_Verify].
    apply claims_errors_0 in Hexp.
    rewrite (proj2 (signature_bit_0 _ _)); [reflexivity|].
    split; [exact Hmac|exact Hexp].
Qed.

(** Whatever else happens, the caller sees [ErrAuthError] and no claims. *)
Lemma Verify_opaque lib j now tokenString :
  Verify lib j now tokenString = (None, Some ErrAuthError) \/
  exists claims, Verify lib j now tokenString = (Some claims, None).
Proof.
  unfold Verify.
  destruct (ParseWithClaims lib now tokenString _) as [token [e|]]; [now left|].
  destruct (Valid token); [right; eauto|now left].
Qed.

(** C5. [Verify] answers with claims or with the one error [ErrAuthError].
    It hands out claims exactly for a token of three decodable segments whose
    header names an algorithm of the HS family, whose signature is the MAC
    under the provider's secret and whose time claims hold at [now]. So a
    token that is malformed, names another algorithm (["none"] included) or
    none, carries a wrong signature or has expired gets [ErrAuthError]. *)
Theorem Verify_fails_closed lib j now tokenString :
  (Verify lib j now tokenString = (None, Some ErrAuthError) \/
   exists claims, Verify lib j now tokenString = (Some claims, None)) /\
  (forall claims,
     Verify lib j now tokenString = (Some claims, None) <->
     acceptable lib j now tokenString claims) /\
  ((forall header body signature, Split_dot tokenString <> [header; body; signature]) ->
   Verify lib j now tokenString = (None, Some ErrAuthError)) /\
  (forall header body signature,
     Split_dot tokenString = [header; body; signature] ->
     DecodeHeader lib header = None \/
     DecodeClaims lib body = None \/
     (exists alg, DecodeHeader lib header = Some alg /\
                  forall name, alg = Some name -> name ∉ ["HS256"; "HS384"; "HS512"]) \/
     (exists name, DecodeHeader lib header = Some (Some name) /\
                   HMAC_Verify lib name (header ++ "." ++ body) signature (hmacSecret j)
                   = false) \/
     (exists c e, DecodeClaims lib body = Some c /\ ExpiresAt c = Some e /\ e <= now) ->
     Verify lib j now tokenString = (None, Some ErrAuthError)).
Proof.
  split; [apply Verify_opaque|]. split; [intros claims; apply Verify_accepts|].
  split.
  - intros Hshape.
    destruct (Verify_opaque lib j now tokenString) as [H | [claims H]]; [exact H|].
    apply Verify_accepts in H. destruct H as (h & b & s & name & Hsplit & _).
    now destruct (Hshape h b s).
  - intros header body signature Hsplit Hcause.
    destruct (Verify_opaque lib j now tokenString) as [H | [claims H]]; [exact H|].
    exfalso. apply Verify_accepts in H.
    destruct H as (h & b & s & name & Hsplit' & Hh & Hc & Hname & Hmac & Hexp & _).
    rewrite Hsplit in Hsplit'. injection Hsplit' as <- <- <-.
    destruct Hcause as [Hbad | [Hbad | [(alg & Halg & Hout) | [(name' & Hh' & Hmac')
                                                             | (c & e & Hc' & He & Hle)]]]].
    + congruence.
    + congruence.
    + apply (Hout name); congruence.
    + assert (name' = name) by congruence. subst name'. congruence.
    + assert (c = claims) by congruence. subst c. rewrite He in Hexp.
      simpl in Hexp. apply Z.ltb_lt in Hexp. lia.
Qed.

Lemma Verify_fails_closed_witness :
  Verify demo_jwt demo_provider 500 "HS256.alice.4437"
    = (Some {| Issuer := "demo"; Subject := "alice"; ExpiresAt := Some 1000;
               NotBefore := None; IssuedAt := Some 100 |}, None) /\
  Verify demo_jwt demo_provider 500 "none.alice." = (None, Some ErrAuthError) /\
  Verify demo_jwt demo_provider 500 "HS256.alice.4438" = (None, Some ErrAuthError) /\
  Verify demo_jwt demo_provider 1000 "HS256.alice.4437" = (None, Some ErrAuthError) /\
  Verify demo_jwt demo_provider 500 "HS256.alice" = (None, Some ErrAuthError).
Proof.
  split; [|split; [|split; [|split]]].
  - apply (Verify_fails_closed demo_jwt demo_provider 500 "HS256.alice.4437").
    exists "HS256", "alice", "4437", "HS256".
    repeat split; try reflexivity. apply list_elem_of_here.
  - apply (proj2 (proj2 (proj2
      (Verify_fails_closed demo_jwt demo_provider 500 "none.alice."))) "none" "alice" "");
      [reflexivity|].
    right; right; left. exists (Some "none"). split; [reflexivity|].
    intros name [= <-] Hin. apply list_elem_of_In in Hin. simpl in Hin.
    intuition discriminate.
  - apply (proj2 (proj2 (proj2
      (Verify_fails_closed demo_jwt demo_provider 500 "HS256.alice.4438")))
      "HS256" "alice" "4438"); [reflexivity|].
    right; right; right; left. exists "HS256". split; reflexivity.
  - apply (proj2 (proj2 (proj2
      (Verify_fails_closed demo_jwt demo_provider 1000 "HS256.alice.4437")))
      "HS256" "alice" "4437"); [reflexivity|].
    right; right; right; right. eexists _, 1000. repeat split. lia.
  - apply (proj1 (proj2 (proj2
      (Verify_fails_closed demo_jwt demo_provider 500 "HS256.alice")))).
    intros header body signature H. discriminate H.
Defined.


(** * Further properties of the code *)

(** ** The nonce generator *)

Lemma string_of_uint_digits (d : Decimal.uint) :
  all_chars is_digit (NilEmpty.string_of_uint d) = true.
Proof. induction d; simpl; try rewrite IHd; reflexivity. Qed.

Lemma Text10_nonneg_digits (n : Z) : 0 <= n -> nonceRegex (Text10 n) = true.
Proof.
  intros Hn. destruct n as [|p|p]; [reflexivity| |lia].
  unfold Text10. simpl.
  pose proof (DecimalPos.Unsigned.to_uint_nonnil p) as Hnil.
  pose proof (string_of_uint_digits (Pos.to_uint p)) as Hdig.
  destruct (Pos.to_uint p); try congruence; exact Hdig.
Qed.

(** X1. A nonce that [GetNonce] produces from a number [rand.Int] can
    return is a non-empty string of decimal digits: it passes the pattern
    the sign-in validation applies to it. *)
Theorem GetNonce_passes_nonceRegex (entropy : RandRead) (nonce : string) :
  rand_in_range entropy ->
  GetNonce entropy = (nonce, None) ->
  nonceRegex nonce = true.
Proof.
  destruct entropy as [n|]; simpl; [|discriminate].
  intros [Hn _] [= <-]. now apply Text10_nonneg_digits.
Qed.

Lemma GetNonce_passes_nonceRegex_witness :
  nonceRegex "1361129467683753853853498429727072845822" = true.
Proof.
  apply (GetNonce_passes_nonceRegex (RandOk (2 ^ 130 - 2))).
  - unfold rand_in_range, max. lia.
  - reflexivity.
Defined.

(** X2. The decimal text loses nothing: reading a generated nonce back as
    a number gives the number drawn, so two draws give the same nonce only
    when they are the same number. *)
Theorem GetNonce_round_trip (n m : Z) :
  parse_nonce (fst (GetNonce (RandOk n))) = Some n /\
  (fst (GetNonce (RandOk n)) = fst (GetNonce (RandOk m)) -> n = m).
Proof.
  assert (Hparse : forall z, parse_nonce (Text10 z) = Some z).
  { intros z. unfold parse_nonce, Text10. rewrite NilZero.isi.
    - simpl. now rewrite DecimalZ.of_to.
    - destruct z; simpl; try discriminate.
      intros [= H]. now apply DecimalPos.Unsigned.to_uint_nonnil in H.
    - destruct z; simpl; try discriminate.
      intros [= H]. now apply DecimalPos.Unsigned.to_uint_nonnil in H. }
  simpl. split; [apply Hparse|].
  intros Heq. pose proof (Hparse n) as Hn. rewrite Heq, Hparse in Hn. congruence.
Qed.

(** ** What the registry holds *)

(** X3. As long as the entropy source behaves, every nonce the registry
    holds, and so every nonce the nonce route hands out, passes the pattern
    that the sign-in validation applies to a submitted nonce. *)
Theorem stored_nonces_pass_nonceRegex crypto lib jwtProvider reqs :
  draws_in_range reqs ->
  (forall k u,
     users (run crypto lib jwtProvider NewMemStorage reqs) !! k = Some u ->
     nonceRegex (Nonce u) = true) /\
  (forall address nonce,
     UserNonceHandler (run crypto lib jwtProvider NewMemStorage reqs) address
       = renderJson StatusOK (NonceBody nonce) ->
     nonceRegex nonce = true).
Proof.
  intros Hdraws.
  assert (Hinv : forall k u,
            users (run crypto lib jwtProvider NewMemStorage reqs) !! k = Some u ->
            nonceRegex (Nonce u) = true).
  { assert (Hgen : forall storage,
              (forall k u, users storage !! k = Some u -> nonceRegex (Nonce u) = true) ->
              forall k u, users (run crypto lib jwtProvider storage reqs) !! k = Some u ->
                          nonceRegex (Nonce u) = true).
    { induction reqs as [|req reqs IH]; intros storage Hst; [exact Hst|].
      apply IH.
      - intros r n Hin. apply Hdraws. now right.
      - destruct (serve_storage_shape crypto lib jwtProvider storage req)
          as [-> | (n & a & Hdraw & ->)]; [exact Hst|].
        intros k u. simpl. rewrite lookup_insert. case_decide; [|apply Hst].
        intros [= <-]. simpl. apply Text10_nonneg_digits.
        apply (Hdraws req n); [now left|exact Hdraw]. }
    apply Hgen. intros k u H. simpl in H. rewrite lookup_empty in H. discriminate. }
  split; [exact Hinv|].
  intros address nonce. unfold UserNonceHandler, Get.
  destruct (negb (hexRegex address)); [discriminate|].
  destruct (users _ !! ToLower address) as [u|] eqn:Hu; simpl; [|discriminate].
  intros [= <-]. exact (Hinv _ _ Hu).
Qed.

Lemma stored_nonces_pass_nonceRegex_witness :
  UserNonceHandler demo_storage demo_Address_mixed = renderJson StatusOK (NonceBody "5") /\
  nonceRegex "5" = true.
Proof.
  assert (Hreply : UserNonceHandler demo_storage demo_Address_mixed
                   = renderJson StatusOK (NonceBody "5")) by (vm_compute; reflexivity).
  split; [exact Hreply|].
  destruct (stored_nonces_pass_nonceRegex demo_crypto demo_jwt demo_provider demo_history)
    as [_ Hroute].
  - intros req n [<- | []] [= <-]. unfold max. lia.
  - apply (Hroute demo_Address_mixed "5"). exact Hreply.
Defined.

(** X6. On a registry the server can be in, [Authenticate] neither adds
    nor removes an address, leaves the record of every other address as it
    is, and keeps the address of the record it rewrites. *)
Theorem Authenticate_frame
    crypto lib jwtProvider storage address nonce sigHex entropy :
  reachable crypto lib jwtProvider storage ->
  dom (users (snd (Authenticate crypto storage address nonce sigHex entropy)))
    = dom (users storage) /\
  (forall k, k <> address ->
     users (snd (Authenticate crypto storage address nonce sigHex entropy)) !! k
       = users storage !! k) /\
  (forall u, users (snd (Authenticate crypto storage address nonce sigHex entropy))
               !! address = Some u ->
             Address u = address).
Proof.
  intros Hreach. pose proof (reachable_keys _ _ _ _ Hreach) as Hwf.
  rewrite Authenticate_cases.
  destruct (users storage !! address) as [user|] eqn:Hget;
    [|simpl; split; [reflexivity|split; [reflexivity|congruence]]].
  destruct (Hwf _ _ Hget) as (Haddr & _).
  assert (Hsame : dom (users storage) = dom (users storage) /\
                  (forall k, k <> address -> users storage !! k = users storage !! k) /\
                  (forall u, users storage !! address = Some u -> Address u = address))
    by (split; [reflexivity|split; [reflexivity|congruence]]).
  destruct (negb (String.eqb (Nonce user) nonce)); [exact Hsame|].
  destruct (recover_address crypto nonce sigHex) as [[reason|a]|]; try exact Hsame.
  destruct (negb (String.eqb (Address user) a)); [exact Hsame|].
  destruct entropy as [n|]; [|exact Hsame].
  rewrite Haddr. simpl. split; [|split].
  - rewrite dom_insert_L.
    apply subseteq_union_1_L, singleton_subseteq_l, elem_of_dom. eauto.
  - intros k Hk. now rewrite lookup_insert_ne.
  - intros u. rewrite lookup_insert_eq. now intros [= <-].
Qed.

Lemma Authenticate_frame_witness :
  dom (users (demo_storage_after 7)) = dom (users demo_storage) /\
  (forall k, k <> demo_address ->
     users (demo_storage_after 7) !! k = users demo_storage !! k) /\
  (forall u, users (demo_storage_after 7) !! demo_address = Some u ->
             Address u = demo_address).
Proof.
  apply (Authenticate_frame demo_crypto demo_jwt demo_provider demo_storage
           demo_address "5" demo_sig_5 (RandOk 7)).
  exact demo_storage_reachable.
Defined.

(** X7. A request changes the record of an address only if it is a sign-in
    for that address that presents the record's current nonce and a
    signature recovering to the address; the record then holds the nonce the
    request drew. Registrations, lookups and sign-ins for other addresses
    leave it alone. *)
Theorem record_changes_only_by_own_signin crypto lib jwtProvider storage req k u :
  reachable crypto lib jwtProvider storage ->
  users storage !! k = Some u ->
  users (snd (serve crypto lib jwtProvider storage req)) !! k <> Some u ->
  exists p n now,
    req = PostSignin (Some p) (RandOk n) now /\
    SigninPayload.Validate p = None /\
    ToLower (SigninPayload.Address p) = k /\
    SigninPayload.Nonce p = Nonce u /\
    recover_address crypto (SigninPayload.Nonce p) (SigninPayload.Sig p)
      = Returns (inr k) /\
    users (snd (serve crypto lib jwtProvider storage req)) !! k
      = Some {| Address := k; Nonce := Text10 n |}.
Proof.
  intros Hreach Hk Hchanged. pose proof (reachable_keys _ _ _ _ Hreach) as Hwf.
  destruct req as [body entropy|address|body entropy now]; simpl in *.
  - exfalso. apply Hchanged. clear Hchanged.
    unfold RegisterHandler.
    destruct body as [p|]; [|exact Hk].
    destruct (RegisterPayload.Validate p); [exact Hk|].
    destruct entropy as [n|]; simpl; [|exact Hk].
    unfold CreateIfNotExists. simpl.
    destruct (users storage !! ToLower (RegisterPayload.Address p)) eqn:Hp; simpl;
      [exact Hk|].
    rewrite lookup_insert_ne; [exact Hk|]. intros <-. congruence.
  - now destruct Hchanged.
  - unfold SigninHandler in *.
    destruct body as [p|]; [|now destruct Hchanged].
    destruct (SigninPayload.Validate p) eqn:Hval; [now destruct Hchanged|].
    assert (Hsnd : users (snd (Authenticate crypto storage
                     (ToLower (SigninPayload.Address p)) (SigninPayload.Nonce p)
                     (SigninPayload.Sig p) entropy)) !! k <> Some u).
    { destruct (Authenticate _ _ _ _ _ _) as [[[user [e|]]|why] storage'];
        simpl in *; try exact Hchanged.
      - destruct e; exact Hchanged.
      - destruct (CreateStandard _ _ _ _) as [tok [e|]]; exact Hchanged. }
    assert (Hres : snd (SigninHandler crypto lib storage jwtProvider (Some p) entropy now)
                   = snd (Authenticate crypto storage
                            (ToLower (SigninPayload.Address p)) (SigninPayload.Nonce p)
                            (SigninPayload.Sig p) entropy)).
    { destruct (SigninHandler_storage crypto lib storage jwtProvider (Some p) entropy now)
        as [Hs | (p' & [= <-] & Hs)]; [|exact Hs].
      exfalso. unfold SigninHandler in Hs. rewrite Hval in Hs.
      rewrite Hs in Hchanged. now apply Hchanged. }
    unfold SigninHandler in Hres. rewrite Hval in Hres. rewrite Hres. clear Hres Hchanged.
    rewrite Authenticate_cases in *.
    destruct (users storage !! ToLower (SigninPayload.Address p)) as [user|] eqn:Hget;
      [|now destruct Hsnd].
    destruct (Hwf _ _ Hget) as (Haddr & _).
    destruct (String.eqb (Nonce user) (SigninPayload.Nonce p)) eqn:Hn;
      [|now destruct Hsnd]. simpl in *.
    destruct (recover_address crypto _ _) as [[reason|a]|] eqn:Hrec;
      try now destruct Hsnd.
    destruct (String.eqb (Address user) a) eqn:Ha; [|now destruct Hsnd]. simpl in *.
    destruct entropy as [n|]; [|now destruct Hsnd]. simpl in *.
    apply String.eqb_eq in Hn, Ha. rewrite Haddr in *.
    destruct (decide (ToLower (SigninPayload.Address p) = k)) as [Heq|Hne].
    + exists p, n, now. rewrite Heq in *. rewrite lookup_insert_eq.
      assert (user = u) by congruence. subst user a.
      repeat split; congruence.
    + exfalso. apply Hsnd. now rewrite lookup_insert_ne.
Qed.

Lemma record_changes_only_by_own_signin_witness :
  exists p n now,
    PostSignin (Some (demo_signin "5" demo_sig_5)) (RandOk 7) 0
      = PostSignin (Some p) (RandOk n) now /\
    SigninPayload.Validate p = None /\
    ToLower (SigninPayload.Address p) = demo_address /\
    SigninPayload.Nonce p = Nonce (demo_user "5") /\
    recover_address demo_crypto (SigninPayload.Nonce p) (SigninPayload.Sig p)
      = Returns (inr demo_address) /\
    users (snd (serve demo_crypto demo_jwt demo_provider demo_storage
                  (PostSignin (Some (demo_signin "5" demo_sig_5)) (RandOk 7) 0)))
      !! demo_address
      = Some {| Address := demo_address; Nonce := Text10 n |}.
Proof.
  apply (record_changes_only_by_own_signin demo_crypto demo_jwt demo_provider
           demo_storage (PostSignin (Some (demo_signin "5" demo_sig_5)) (RandOk 7) 0)
           demo_address (demo_user "5")).
  - exact demo_storage_reachable.
  - vm_compute. reflexivity.
  - vm_compute. discriminate.
Defined.

(** ** The sign-in route, end to end *)

(** X4. A validated sign-in for an address that has no record is answered
    with 500: [Authenticate] returns [ErrUserNotExists], which is not the
    one error the handler maps to 401, and the registry is unchanged. *)
Theorem signin_unknown_address_is_500 crypto lib jwtProvider storage p entropy now :
  SigninPayload.Validate p = None ->
  users storage !! ToLower (SigninPayload.Address p) = None ->
  Authenticate crypto storage (ToLower (SigninPayload.Address p))
    (SigninPayload.Nonce p) (SigninPayload.Sig p) entropy
    = (Returns (zeroUser, Some ErrUserNotExists), storage) /\
  SigninHandler crypto lib storage jwtProvider (Some p) entropy now
    = (Returns (WriteHeader StatusInternalServerError), storage).
Proof.
  intros Hval Hnone.
  assert (Hauth : Authenticate crypto storage (ToLower (SigninPayload.Address p))
            (SigninPayload.Nonce p) (SigninPayload.Sig p) entropy
            = (Returns (zeroUser, Some ErrUserNotExists), storage))
    by now rewrite Authenticate_cases, Hnone.
  split; [exact Hauth|].
  now rewrite (SigninHandler_valid _ _ _ _ _ _ _ Hval), Hauth.
Qed.

Lemma signin_unknown_address_is_500_witness :
  Authenticate demo_crypto NewMemStorage (ToLower demo_Address_mixed) "5" demo_sig_5
    (RandOk 7)
    = (Returns (zeroUser, Some ErrUserNotExists), NewMemStorage) /\
  SigninHandler demo_crypto demo_jwt NewMemStorage demo_provider
    (Some (demo_signin "5" demo_sig_5)) (RandOk 7) 0
    = (Returns (WriteHeader StatusInternalServerError), NewMemStorage).
Proof.
  apply (signin_unknown_address_is_500 demo_crypto demo_jwt demo_provider NewMemStorage
           (demo_signin "5" demo_sig_5) (RandOk 7) 0); reflexivity.
Defined.

(** X5. When the record is found, the nonce matches, the signature
    recovers to the record's address and the entropy source answers, the
    handler leaves the registry with the drawn nonce under the address
    whether or not the token can be signed: with a token it answers 200 and
    the token, without one it answers 500 and the nonce is spent all the
    same. The nonce route then hands out the new nonce. *)
Theorem signin_rotates_before_signing crypto lib jwtProvider storage p n now u :
  SigninPayload.Validate p = None ->
  users storage !! ToLower (SigninPayload.Address p) = Some u ->
  Address u = ToLower (SigninPayload.Address p) ->
  Nonce u = SigninPayload.Nonce p ->
  recover_address crypto (SigninPayload.Nonce p) (SigninPayload.Sig p)
    = Returns (inr (Address u)) ->
  SigninHandler crypto lib storage jwtProvider (Some p) (RandOk n) now
    = (Returns (match CreateStandard lib jwtProvider now (Address u) with
                | (_, Some _) => WriteHeader StatusInternalServerError
                | (signedToken, None) => renderJson StatusOK (AccessBody signedToken)
                end),
       {| users := <[Address u := {| Address := Address u; Nonce := Text10 n |}]>
                     (users storage) |}) /\
  UserNonceHandler
    (snd (SigninHandler crypto lib storage jwtProvider (Some p) (RandOk n) now))
    (SigninPayload.Address p)
    = renderJson StatusOK (NonceBody (Text10 n)).
Proof.
  intros Hval Hget Haddr Hnonce Hrec.
  assert (Hhandler :
    SigninHandler crypto lib storage jwtProvider (Some p) (RandOk n) now
    = (Returns (match CreateStandard lib jwtProvider now (Address u) with
                | (_, Some _) => WriteHeader StatusInternalServerError
                | (signedToken, None) => renderJson StatusOK (AccessBody signedToken)
                end),
       {| users := <[Address u := {| Address := Address u; Nonce := Text10 n |}]>
                     (users storage) |})).
  { rewrite (SigninHandler_valid _ _ _ _ _ _ _ Hval), Authenticate_cases, Hget, Hrec.
    apply String.eqb_eq in Hnonce. rewrite Hnonce, String.eqb_refl. simpl.
    destruct (CreateStandard lib jwtProvider now (Address u)) as [tok [e|]]; reflexivity. }
  split; [exact Hhandler|].
  rewrite Hhandler. simpl. unfold UserNonceHandler, Get. simpl.
  unfold SigninPayload.Validate in Hval.
  destruct (hexRegex (SigninPayload.Address p)); [|discriminate]. simpl.
  now rewrite Haddr, lookup_insert_eq.
Qed.

Lemma signin_rotates_before_signing_witness :
  (SigninHandler demo_crypto demo_codec demo_storage demo_provider
     (Some (demo_signin "5" demo_sig_5)) (RandOk 7) 0
   = (Returns (WriteHeader StatusInternalServerError), demo_storage_after 7)) /\
  UserNonceHandler
    (snd (SigninHandler demo_crypto demo_codec demo_storage demo_provider
            (Some (demo_signin "5" demo_sig_5)) (RandOk 7) 0))
    demo_Address_mixed
  = renderJson StatusOK (NonceBody "7").
Proof.
  destruct (signin_rotates_before_signing demo_crypto demo_codec demo_provider
              demo_storage (demo_signin "5" demo_sig_5) 7 0 (demo_user "5"))
    as [Hhandler Hroute]; try (vm_compute; reflexivity).
  split; [|exact Hroute].
  rewrite Hhandler. vm_compute. reflexivity.
Defined.

(** ** The protected route *)

Lemma substring_whole (s : string) : String.substring 0 (String.length s) s = s.
Proof. induction s as [|c s IH]; simpl; [reflexivity|now rewrite IH]. Qed.

Lemma substring_none (n : nat) (s : string) : String.substring n 0 s = EmptyString.
Proof.
  revert n. induction s as [|c s IH]; intros [|n]; simpl; try reflexivity. apply IH.
Qed.

Lemma string_from_app (pre tok : string) :
  string_from (String.length pre) (pre ++ tok) = tok.
Proof.
  unfold string_from. induction pre as [|c pre IH]; simpl.
  - rewrite Nat.sub_0_r. apply substring_whole.
  - exact IH.
Qed.

Lemma length_app_string (pre tok : string) :
  String.length (pre ++ tok) = (String.length pre + String.length tok)%nat.
Proof. induction pre as [|c pre IH]; simpl; [reflexivity|now rewrite IH]. Qed.

Lemma string_from_short (n : nat) (s : string) :
  (String.length s <= n)%nat -> string_from n s = EmptyString.
Proof.
  intros Hle. unfold string_from.
  replace (String.length s - n)%nat with 0%nat by lia. apply substring_none.
Qed.

Lemma acceptable_nonempty lib j now tokenString claims :
  acceptable lib j now tokenString claims -> tokenString <> EmptyString.
Proof. intros (h & b & s & name & Hsplit & _) ->. discriminate Hsplit. Qed.

Lemma acceptable_unique lib j now tokenString c1 c2 :
  acceptable lib j now tokenString c1 -> acceptable lib j now tokenString c2 -> c1 = c2.
Proof. intros H1%Verify_accepts H2%Verify_accepts. congruence. Qed.

(** The middleware on a header whose token is good and whose subject has a
    record. *)
Lemma AuthMiddleware_passes {R} lib storage jwtProvider now headerValue
    (next : option User -> result R) claims user :
  acceptable lib jwtProvider now (string_from 7 headerValue) claims ->
  users storage !! Subject claims = Some user ->
  AuthMiddleware lib storage jwtProvider now headerValue next
  = match next (Some user) with
    | Panics why => Panics why
    | Returns r => Returns (inr r)
    end.
Proof.
  intros Hacc Huser. pose proof (acceptable_nonempty _ _ _ _ _ Hacc) as Hne.
  unfold AuthMiddleware. change (String.length "Bearer ") with 7%nat.
  destruct (String.length headerValue <? 7)%nat eqn:Hlen.
  - apply Nat.ltb_lt in Hlen. rewrite string_from_short in Hne by lia. now destruct Hne.
  - destruct (string_from 7 headerValue) as [|c rest] eqn:Htok; [now destruct Hne|].
    cbn [String.length Nat.eqb]. apply Verify_accepts in Hacc. rewrite Hacc.
    unfold Get. now rewrite Huser.
Qed.

(** The middleware on every other header. *)
Lemma AuthMiddleware_rejects {R} lib storage jwtProvider now headerValue
    (next : option User -> result R) :
  Verify lib jwtProvider now (string_from 7 headerValue) = (None, Some ErrAuthError) \/
  (exists claims,
     Verify lib jwtProvider now (string_from 7 headerValue) = (Some claims, None) /\
     users storage !! Subject claims = None) ->
  AuthMiddleware lib storage jwtProvider now headerValue next
  = Returns (inl (WriteHeader StatusUnauthorized)).
Proof.
  intros Hrej. unfold AuthMiddleware. change (String.length "Bearer ") with 7%nat.
  destruct (String.length headerValue <? 7)%nat; [reflexivity|].
  destruct (String.length (string_from 7 headerValue) =? 0)%nat; [reflexivity|].
  destruct Hrej as [-> | (claims & -> & Hnone)]; [reflexivity|].
  unfold Get. now rewrite Hnone.
Qed.

(** X8. The middleware calls [next] exactly when the header, from its
    eighth byte on, is a token [Verify] accepts whose subject has a record,
    and it hands [next] that record. In every other case it answers 401
    itself; it never answers 500 and never panics on its own. *)
Theorem AuthMiddleware_outcomes {R} lib storage jwtProvider now headerValue
    (next : option User -> result R) :
  (AuthMiddleware lib storage jwtProvider now headerValue next
     = Returns (inl (WriteHeader StatusUnauthorized)) /\
   forall claims,
     acceptable lib jwtProvider now (string_from 7 headerValue) claims ->
     users storage !! Subject claims = None) \/
  (exists claims user,
     acceptable lib jwtProvider now (string_from 7 headerValue) claims /\
     users storage !! Subject claims = Some user /\
     AuthMiddleware lib storage jwtProvider now headerValue next
     = match next (Some user) with
       | Panics why => Panics why
       | Returns r => Returns (inr r)
       end).
Proof.
  destruct (Verify_opaque lib jwtProvider now (string_from 7 headerValue))
    as [Hrej | [claims Hok]].
  - left. split; [apply AuthMiddleware_rejects; now left|].
    intros claims Hacc%Verify_accepts. congruence.
  - pose proof (proj1 (Verify_accepts _ _ _ _ _) Hok) as Hacc.
    destruct (users storage !! Subject claims) as [user|] eqn:Huser.
    + right. exists claims, user. split; [exact Hacc|]. split; [exact Huser|].
      now apply AuthMiddleware_passes with (claims := claims).
    + left. split; [apply AuthMiddleware_rejects; right; eauto|].
      intros claims' Hacc'. now rewrite (acceptable_unique _ _ _ _ _ _ Hacc' Hacc).
Qed.

(** X9. Behind the middleware the welcome handler never meets a context
    without a user: the route answers 401, or 200 with a greeting that
    names the address of the record stored under the token's subject. *)
Theorem welcome_route_outcomes lib storage jwtProvider now headerValue :
  AuthMiddleware lib storage jwtProvider now headerValue WelcomeHandler
    = Returns (inl (WriteHeader StatusUnauthorized)) \/
  exists claims user,
    Verify lib jwtProvider now (string_from 7 headerValue) = (Some claims, None) /\
    users storage !! Subject claims = Some user /\
    AuthMiddleware lib storage jwtProvider now headerValue WelcomeHandler
    = Returns (inr {| WelcomeStatus := StatusOK;
                      Msg := "Congrats " ++ Address user ++ " you made it" |}).
Proof.
  destruct (Verify_opaque lib jwtProvider now (string_from 7 headerValue))
    as [Hrej | [claims Hok]].
  - left. apply AuthMiddleware_rejects. now left.
  - destruct (users storage !! Subject claims) as [user|] eqn:Huser.
    + right. exists claims, user. split; [exact Hok|]. split; [exact Huser|].
      apply Verify_accepts in Hok.
      now rewrite (AuthMiddleware_passes _ _ _ _ _ _ claims user Hok Huser).
    + left. apply AuthMiddleware_rejects. right. eauto.
Qed.

(** X10. Only the length of the header's first seven bytes matters: the
    middleware does not compare them with ["Bearer "], so any seven bytes
    in front of a token get the answer that ["Bearer "] gets. *)
Theorem AuthMiddleware_ignores_scheme {R} lib storage jwtProvider now
    (pre pre' tok : string) (next : option User -> result R) :
  String.length pre = 7%nat ->
  String.length pre' = 7%nat ->
  AuthMiddleware lib storage jwtProvider now (pre ++ tok) next
  = AuthMiddleware lib storage jwtProvider now (pre' ++ tok) next.
Proof.
  intros Hpre Hpre'. unfold AuthMiddleware. change (String.length "Bearer ") with 7%nat.
  assert (Htok : string_from 7 (pre ++ tok) = tok)
    by (rewrite <- Hpre; apply string_from_app).
  assert (Htok' : string_from 7 (pre' ++ tok) = tok)
    by (rewrite <- Hpre'; apply string_from_app).
  now rewrite !length_app_string, Hpre, Hpre', Htok, Htok'.
Qed.

Lemma AuthMiddleware_ignores_scheme_witness :
  AuthMiddleware demo_jwt demo_storage demo_provider 500
    ("Basic: " ++ "HS256.0xabcdef0123456789abcdef0123456789abcdef01.7033") WelcomeHandler
  = AuthMiddleware demo_jwt demo_storage demo_provider 500
      ("Bearer " ++ "HS256.0xabcdef0123456789abcdef0123456789abcdef01.7033") WelcomeHandler
  /\
  AuthMiddleware demo_jwt demo_storage demo_provider 500
    ("Basic: " ++ "HS256.0xabcdef0123456789abcdef0123456789abcdef01.7033") WelcomeHandler
  = Returns (inr {| WelcomeStatus := StatusOK;
                    Msg := "Congrats 0xabcdef0123456789abcdef0123456789abcdef01 you made it" |}).
Proof.
  split.
  - apply (AuthMiddleware_ignores_scheme demo_jwt demo_storage demo_provider 500
             "Basic: " "Bearer "); reflexivity.
  - vm_compute. reflexivity.
Defined.

(** ** Tokens from issue to use *)

Lemma verifyIat_le (t now : Z) : verifyIat (Some t) now false = true <-> t <= now.
Proof.
  unfold verifyIat. rewrite orb_true_iff, Z.ltb_lt, Z.eqb_eq. lia.
Qed.

(** A token the provider issued is acceptable from the instant of issue
    until just before its lifetime has passed, and not outside. *)
Lemma issued_token_acceptable lib j now subject tok now' :
  jwt_coherent lib ->
  CreateStandard lib j now subject = (tok, None) ->
  (now <= now' < now + duration j <->
   acceptable lib j now' tok
     {| Issuer := issuer j; Subject := subject; ExpiresAt := Some (now + duration j);
        NotBefore := None; IssuedAt := Some now |}) /\
  (forall claims, acceptable lib j now' tok claims ->
     claims = {| Issuer := issuer j; Subject := subject;
                 ExpiresAt := Some (now + duration j);
                 NotBefore := None; IssuedAt := Some now |}).
Proof.
  intros Hlib Hsign. unfold CreateStandard, SigningMethodHS256 in Hsign.
  destruct (Hlib _ _ _ _ Hsign) as (h & b & s & Hsplit & Hh & Hc & Hmac).
  split; [split|].
  - intros [Hlo Hhi]. exists h, b, s, "HS256".
    split; [exact Hsplit|]. split; [exact Hh|]. split; [exact Hc|].
    split; [apply list_elem_of_here|]. split; [exact Hmac|]. simpl.
    split; [now apply Z.ltb_lt|]. split; [now apply verifyIat_le|reflexivity].
  - intros (h' & b' & s' & name & Hsplit' & _ & _ & _ & _ & Hexp & Hiat & _).
    simpl in Hexp. apply Z.ltb_lt in Hexp. apply verifyIat_le in Hiat. lia.
  - intros claims (h' & b' & s' & name & Hsplit' & _ & Hc' & _).
    rewrite Hsplit in Hsplit'. injection Hsplit' as <- <- <-. congruence.
Qed.

(** X11. With a token library whose signing and parsing agree, a token
    issued at [now] verifies, with the claims it was issued for, at every
    instant from [now] until just before [now + duration]; at
    [now + duration] and later, and before [now], it gets
    [ErrAuthError]. *)
Theorem issued_token_window lib j now subject tok now' :
  jwt_coherent lib ->
  CreateStandard lib j now subject = (tok, None) ->
  Verify lib j now' tok
  = if (now <=? now') && (now' <? now + duration j)
    then (Some {| Issuer := issuer j; Subject := subject;
                  ExpiresAt := Some (now + duration j);
                  NotBefore := None; IssuedAt := Some now |}, None)
    else (None, Some ErrAuthError).
Proof.
  intros Hlib Hsign.
  destruct (issued_token_acceptable lib j now subject tok now' Hlib Hsign)
    as [Hwin Honly].
  destruct ((now <=? now') && (now' <? now + duration j)) eqn:Hin.
  - apply andb_prop in Hin as [Hlo%Z.leb_le Hhi%Z.ltb_lt].
    apply Verify_accepts, Hwin. lia.
  - destruct (Verify_opaque lib j now' tok) as [H | [claims H]]; [exact H|].
    exfalso. apply Verify_accepts in H.
    rewrite (Honly claims H) in H. apply Hwin in H.
    apply andb_false_iff in Hin as [Hlo%Z.leb_gt | Hhi%Z.ltb_ge]; lia.
Qed.

Lemma demo_codec_coherent : jwt_coherent demo_codec.
Proof.
  intros name claims key tok. simpl.
  repeat case_bool_decide; simpl; try discriminate.
  intros [= <-]. subst. exists "HS256", "c", "4026".
  vm_compute. repeat split; reflexivity.
Qed.

Lemma issued_token_window_witness :
  Verify demo_codec demo_provider 100 "HS256.c.4026" = (Some demo_claims, None) /\
  Verify demo_codec demo_provider 999 "HS256.c.4026" = (Some demo_claims, None) /\
  Verify demo_codec demo_provider 1000 "HS256.c.4026" = (None, Some ErrAuthError) /\
  Verify demo_codec demo_provider 99 "HS256.c.4026" = (None, Some ErrAuthError).
Proof.
  split; [|split; [|split]].
  - exact (issued_token_window demo_codec demo_provider 100 demo_address "HS256.c.4026"
             100 demo_codec_coherent eq_refl).
  - exact (issued_token_window demo_codec demo_provider 100 demo_address "HS256.c.4026"
             999 demo_codec_coherent eq_refl).
  - exact (issued_token_window demo_codec demo_provider 100 demo_address "HS256.c.4026"
             1000 demo_codec_coherent eq_refl).
  - exact (issued_token_window demo_codec demo_provider 100 demo_address "HS256.c.4026"
             99 demo_codec_coherent eq_refl).
Defined.

Lemma demo_storage_reachable_codec :
  reachable demo_crypto demo_codec demo_provider demo_storage.
Proof. exists demo_history. vm_compute. reflexivity. Qed.

(** X12. With a token library whose signing and parsing agree: the access
    token of a successful sign-in, sent as ["Bearer " ++ token] before its
    lifetime has passed, opens the protected route for the address that
    signed in, whatever requests the server has served in between. *)
Theorem signin_token_opens_welcome
    crypto lib jwtProvider storage p entropy now tok storage' now' reqs :
  jwt_coherent lib ->
  reachable crypto lib jwtProvider storage ->
  SigninHandler crypto lib storage jwtProvider (Some p) entropy now
    = (Returns (renderJson StatusOK (AccessBody tok)), storage') ->
  now <= now' < now + duration jwtProvider ->
  AuthMiddleware lib (run crypto lib jwtProvider storage' reqs) jwtProvider now'
    ("Bearer " ++ tok) WelcomeHandler
  = Returns (inr {| WelcomeStatus := StatusOK;
                    Msg := "Congrats " ++ ToLower (SigninPayload.Address p)
                           ++ " you made it" |}).
Proof.
  intros Hlib Hreach Hsign Hwin.
  destruct (SigninPayload.Validate p) as [e|] eqn:Hval.
  { unfold SigninHandler in Hsign. rewrite Hval in Hsign. discriminate. }
  rewrite (SigninHandler_valid _ _ _ _ _ _ _ Hval) in Hsign.
  pose proof (Authenticate_keys crypto storage (ToLower (SigninPayload.Address p))
                (SigninPayload.Nonce p) (SigninPayload.Sig p) entropy
                (reachable_keys _ _ _ _ Hreach)) as Hkeys.
  destruct (Authenticate _ _ _ _ _ _) as [[[user [e|]]|why] st1] eqn:Hauth;
    [destruct e; discriminate| |discriminate].
  destruct (CreateStandard lib jwtProvider now (Address user)) as [tok' [e|]] eqn:Hcs;
    [discriminate|].
  injection Hsign as -> ->. simpl in Hkeys.
  destruct (Authenticate_success _ _ _ _ _ _ _ _ _ _ Hreach Hauth)
    as (n & _ & Huser & _ & _ & Hst).
  assert (Hsub : Address user = ToLower (SigninPayload.Address p))
    by (now rewrite Huser).
  rewrite Hsub in Hcs.
  assert (Hnow : is_Some (users storage' !! ToLower (SigninPayload.Address p)))
    by (rewrite Hst; simpl; rewrite lookup_insert_eq; eauto).
  destruct (run_keeps_users crypto lib jwtProvider reqs storage' _ Hnow) as [user2 Huser2].
  destruct (run_keys crypto lib jwtProvider reqs storage' Hkeys _ _ Huser2) as (Haddr2 & _).
  destruct (issued_token_acceptable lib jwtProvider now _ tok now' Hlib Hcs) as [Hacc _].
  apply Hacc in Hwin.
  rewrite (AuthMiddleware_passes lib (run crypto lib jwtProvider storage' reqs)
             jwtProvider now' ("Bearer " ++ tok) WelcomeHandler
             {| Issuer := issuer jwtProvider;
                Subject := ToLower (SigninPayload.Address p);
                ExpiresAt := Some (now + duration jwtProvider);
                NotBefore := None; IssuedAt := Some now |} user2).
  - simpl. now rewrite Haddr2.
  - change 7%nat with (String.length "Bearer "). rewrite string_from_app. exact Hwin.
  - exact Huser2.
Qed.

Lemma signin_token_opens_welcome_witness :
  AuthMiddleware demo_codec
    (run demo_crypto demo_codec demo_provider (demo_storage_after 7)
       [GetUserNonce demo_address]) demo_provider 500
    ("Bearer " ++ "HS256.c.4026") WelcomeHandler
  = Returns (inr {| WelcomeStatus := StatusOK;
                    Msg := "Congrats " ++ ToLower demo_Address_mixed ++ " you made it" |}).
Proof.
  apply (signin_token_opens_welcome demo_crypto demo_codec demo_provider demo_storage
           (demo_signin "5" demo_sig_5) (RandOk 7) 100 "HS256.c.4026"
           (demo_storage_after 7) 500 [GetUserNonce demo_address]).
  - exact demo_codec_coherent.
  - exact demo_storage_reachable_codec.
  - vm_compute. reflexivity.
  - simpl. lia.
Defined.

(** ** Sign-ins under every interleaving *)

Lemma task_holds_dom storage storage' t :
  dom (users storage') = dom (users storage) ->
  task_holds storage t -> task_holds storage' t.
Proof.
  intros Hdom.
  assert (Hsome : forall k, is_Some (users storage !! k) -> is_Some (users storage' !! k))
    by (intros k; rewrite <- !elem_of_dom, Hdom; auto).
  destruct t as [| user [e|] | user |]; simpl; try tauto.
  - intros (H1 & H2 & H3). auto.
  - intros (H1 & H2 & H3). auto.
Qed.

(** One step of one goroutine keeps the set of addresses, the canonical
    form of the keys, and what the goroutine holds. *)
Lemma auth_step_keeps crypto t storage :
  keys_canonical storage -> task_holds storage t ->
  dom (users (snd (auth_step crypto t storage))) = dom (users storage) /\
  keys_canonical (snd (auth_step crypto t storage)) /\
  task_holds (snd (auth_step crypto t storage)) (fst (auth_step crypto t storage)).
Proof.
  intros Hwf Hholds.
  destruct t as [address nonce sigHex entropy | user err nonce sigHex entropy | user | r];
    simpl.
  - unfold Get. destruct (users storage !! address) as [user|] eqn:Hget; simpl.
    + destruct (Hwf _ _ Hget) as (Haddr & Hlow & Hhex). rewrite Haddr.
      split; [reflexivity|]. split; [exact Hwf|]. split; [eauto|]. auto.
    + auto.
  - split; [reflexivity|]. split; [exact Hwf|].
    destruct err as [e|]; [exact I|]. rewrite auth_local_cases.
    destruct (negb (String.eqb (Nonce user) nonce)); [exact I|].
    destruct (recover_address crypto nonce sigHex) as [[reason|a]|]; try exact I.
    destruct (negb (String.eqb (Address user) a)); [exact I|].
    destruct entropy; [exact Hholds|exact I].
  - destruct Hholds as (Hsome & Hlow & Hhex). split; [|split; [|exact I]].
    + rewrite dom_insert_L.
      apply subseteq_union_1_L, singleton_subseteq_l, elem_of_dom. exact Hsome.
    + now apply keys_canonical_insert.
  - auto.
Qed.

Lemma schedule_keeps crypto sched tasks storage :
  keys_canonical storage -> Forall (task_holds storage) tasks ->
  dom (users (snd (schedule crypto sched tasks storage))) = dom (users storage) /\
  keys_canonical (snd (schedule crypto sched tasks storage)).
Proof.
  revert tasks storage. induction sched as [|i sched IH]; intros tasks storage Hwf Hall;
    [now split|].
  simpl. destruct (tasks !! i) as [t|] eqn:Hi; [|now apply IH].
  pose proof (Forall_lookup_1 _ _ _ _ Hall Hi) as Ht.
  destruct (auth_step_keeps crypto t storage Hwf Ht) as (Hdom & Hwf' & Ht').
  destruct (auth_step crypto t storage) as [t' storage'] eqn:Hstep. simpl in *.
  destruct (IH (<[i := t']> tasks) storage' Hwf') as [Hdom' Hwf''].
  - apply Forall_insert; [|exact Ht'].
    eapply Forall_impl; [exact Hall|]. intros t2. now apply task_holds_dom.
  - split; [congruence|exact Hwf''].
Qed.

(** X13. However the steps of concurrent sign-ins are interleaved, on a
    registry the server can be in, they neither add nor remove an address,
    and every key stays a valid lowercase address that is the address of its
    record: a race can cost a nonce its single use, but not the registry its
    shape. *)
Theorem schedule_keeps_registry_shape
    crypto lib jwtProvider sched tasks storage :
  reachable crypto lib jwtProvider storage ->
  Forall (task_holds storage) tasks ->
  dom (users (snd (schedule crypto sched tasks storage))) = dom (users storage) /\
  keys_canonical (snd (schedule crypto sched tasks storage)).
Proof.
  intros Hreach Hall. apply schedule_keeps; [|exact Hall].
  exact (reachable_keys _ _ _ _ Hreach).
Qed.

Lemma schedule_keeps_registry_shape_witness :
  dom (users (snd (schedule demo_crypto [0; 1; 0; 1; 0; 1]%nat
                     [AuthStart demo_address "5" demo_sig_5 (RandOk 7);
                      AuthStart demo_address "5" demo_sig_5 (RandOk 8)] demo_storage)))
    = dom (users demo_storage) /\
  keys_canonical (snd (schedule demo_crypto [0; 1; 0; 1; 0; 1]%nat
                         [AuthStart demo_address "5" demo_sig_5 (RandOk 7);
                          AuthStart demo_address "5" demo_sig_5 (RandOk 8)] demo_storage)).
Proof.
  apply (schedule_keeps_registry_shape demo_crypto demo_jwt demo_provider).
  - exact demo_storage_reachable.
  - repeat constructor.
Defined.

(** ** Sign-ins that fail *)

(** X14. [Authenticate] writes the registry only on the path that returns
    a nil error: whenever it returns an error or panics, the registry is the
    one it was given. For the handler: a sign-in answered with 400 or 401,
    or cut short by a panic, has changed nothing. *)
Theorem failed_signin_keeps_registry crypto lib jwtProvider storage :
  (forall address nonce sigHex entropy r st,
     Authenticate crypto storage address nonce sigHex entropy = (r, st) ->
     (forall user, r <> Returns (user, None)) ->
     st = storage) /\
  (forall body entropy now outcome st,
     SigninHandler crypto lib storage jwtProvider body entropy now = (outcome, st) ->
     (forall resp, outcome = Returns resp ->
        StatusCode resp = StatusBadRequest \/ StatusCode resp = StatusUnauthorized) ->
     st = storage).
Proof.
  split.
  - intros address nonce sigHex entropy r st. rewrite Authenticate_cases.
    destruct (users storage !! address) as [user|]; [|congruence].
    destruct (negb (String.eqb (Nonce user) nonce)); [congruence|].
    destruct (recover_address crypto nonce sigHex) as [[reason|a]|]; try congruence.
    destruct (negb (String.eqb (Address user) a)); [congruence|].
    destruct entropy as [n|]; [|congruence].
    intros [= <- <-] Hfail. now destruct (Hfail _ eq_refl).
  - intros body entropy now outcome st Hhandler Hstatus.
    unfold SigninHandler in Hhandler.
    destruct body as [p|]; [|congruence].
    destruct (SigninPayload.Validate p); [congruence|].
    rewrite Authenticate_cases in Hhandler.
    destruct (users storage !! _) as [user|]; [|congruence].
    destruct (negb (String.eqb (Nonce user) _)); [congruence|].
    destruct (recover_address crypto _ _) as [[reason|a]|]; try congruence.
    destruct (negb (String.eqb (Address user) a)); [congruence|].
    destruct entropy as [n|]; [|congruence].
    exfalso. simpl in Hhandler.
    destruct (CreateStandard lib jwtProvider now (Address user)) as [tok [e|]];
      injection Hhandler as <- <-;
      destruct (Hstatus _ eq_refl) as [H | H]; discriminate H.
Qed.

Lemma failed_signin_keeps_registry_witness :
  snd (SigninHandler demo_crypto demo_jwt demo_storage demo_provider
         (Some (demo_signin "6" demo_sig_5)) (RandOk 7) 0) = demo_storage /\
  snd (Authenticate demo_crypto demo_storage demo_address "5" "0xzz" (RandOk 7))
    = demo_storage.
Proof.
  destruct (failed_signin_keeps_registry demo_crypto demo_jwt demo_provider demo_storage)
    as [Hauth Hhandler].
  split.
  - apply (Hhandler (Some (demo_signin "6" demo_sig_5)) (RandOk 7) 0
             (Returns (WriteHeader StatusUnauthorized))).
    + vm_compute. reflexivity.
    + intros resp [= <-]. right. reflexivity.
  - apply (Hauth demo_address "5" "0xzz" (RandOk 7) (Panics "hexutil: invalid hex string")).
    + vm_compute. reflexivity.
    + intros user H. discriminate H.
Defined.
